(** * BBudget: week bucketing and totals of the budget ledger

    A shallow embedding of [utils.ts] (week calendar helpers), [types.ts]
    (the data model) and [storage.ts] (the ledger operations), followed by
    the properties of the week rotation, of removal and of the totals.

    Modelling conventions.
    - A JavaScript [Date] is its time value: a number of milliseconds since
      the epoch, here an integer of [Z].  Only valid dates are modelled (no
      [Invalid Date], no clipping at the ends of the representable range).
    - The local-time methods of [Date] ([getDay], [getDate], [setDate],
      [setHours], ...) are written as ECMAScript defines them, over the day
      and calendar arithmetic of the language specification and over the
      host's time zone, which is a parameter ([TimeZone]).
    - The system clock, read by [new Date()] and [Date.now()], and the
      key-value store are the state of a small state monad ([IO]).
    - Amounts are JavaScript numbers; the development is parametric in the
      number type and its addition ([Number]) and uses no law of addition. *)

From Stdlib Require Import ZArith List String Ascii Bool Lia.
From Stdlib Require Import DecimalString DecimalN DecimalFacts.
Import ListNotations.

Local Open Scope Z_scope.

(* ================================================================== *)
(** * Time values: day and calendar arithmetic of ECMAScript *)
(* ================================================================== *)

Module ES.

Definition msPerSecond : Z := 1000.
Definition msPerMinute : Z := 60000.
Definition msPerHour : Z := 3600000.
Definition msPerDay : Z := 86400000.

(** [Day(t) = floor(t / msPerDay)], [TimeWithinDay(t) = t modulo msPerDay]. *)
Definition Day (t : Z) : Z := t / msPerDay.
Definition TimeWithinDay (t : Z) : Z := t mod msPerDay.

(** 0 is Sunday, ..., 6 is Saturday; 1 January 1970 was a Thursday. *)
Definition WeekDay (t : Z) : Z := (Day t + 4) mod 7.

Definition DaysInYear (y : Z) : Z :=
  if negb (y mod 4 =? 0) then 365
  else if negb (y mod 100 =? 0) then 366
  else if negb (y mod 400 =? 0) then 365
  else 366.

Definition DayFromYear (y : Z) : Z :=
  365 * (y - 1970) + (y - 1969) / 4 - (y - 1901) / 100 + (y - 1601) / 400.

Definition TimeFromYear (y : Z) : Z := msPerDay * DayFromYear y.

(** The largest [y] with [TimeFromYear y <= t]: an estimate from the mean
    length of the Gregorian year, corrected by at most one year. *)
Definition YearFromTime (t : Z) : Z :=
  let d := Day t in
  let y := 1970 + (400 * d) / 146097 in
  if DayFromYear (y + 1) <=? d then y + 1
  else if d <? DayFromYear y then y - 1
  else y.

Definition InLeapYear (t : Z) : Z :=
  if DaysInYear (YearFromTime t) =? 366 then 1 else 0.

Definition DayWithinYear (t : Z) : Z := Day t - DayFromYear (YearFromTime t).

(** 0 is January, ..., 11 is December. *)
Definition MonthFromTime (t : Z) : Z :=
  let d := DayWithinYear t in
  let leap := InLeapYear t in
  if d <? 31 then 0
  else if d <? 59 + leap then 1
  else if d <? 90 + leap then 2
  else if d <? 120 + leap then 3
  else if d <? 151 + leap then 4
  else if d <? 181 + leap then 5
  else if d <? 212 + leap then 6
  else if d <? 243 + leap then 7
  else if d <? 273 + leap then 8
  else if d <? 304 + leap then 9
  else if d <? 334 + leap then 10
  else 11.

(** Day of the month, 1 to 31. *)
Definition DateFromTime (t : Z) : Z :=
  let d := DayWithinYear t in
  let leap := InLeapYear t in
  match MonthFromTime t with
  | 0 => d + 1
  | 1 => d - 30
  | 2 => d - 58 - leap
  | 3 => d - 89 - leap
  | 4 => d - 119 - leap
  | 5 => d - 150 - leap
  | 6 => d - 180 - leap
  | 7 => d - 211 - leap
  | 8 => d - 242 - leap
  | 9 => d - 272 - leap
  | 10 => d - 303 - leap
  | _ => d - 333 - leap
  end.

Definition HourFromTime (t : Z) : Z := (t / msPerHour) mod 24.
Definition MinFromTime (t : Z) : Z := (t / msPerMinute) mod 60.
Definition SecFromTime (t : Z) : Z := (t / msPerSecond) mod 60.
Definition msFromTime (t : Z) : Z := t mod msPerSecond.

Definition MakeTime (hour min sec ms : Z) : Z :=
  hour * msPerHour + min * msPerMinute + sec * msPerSecond + ms.

(** Number of days of the year before the first of month [mn] (0 to 11). *)
Definition DaysBeforeMonth (mn leap : Z) : Z :=
  match mn with
  | 0 => 0
  | 1 => 31
  | 2 => 59 + leap
  | 3 => 90 + leap
  | 4 => 120 + leap
  | 5 => 151 + leap
  | 6 => 181 + leap
  | 7 => 212 + leap
  | 8 => 243 + leap
  | 9 => 273 + leap
  | 10 => 304 + leap
  | _ => 334 + leap
  end.

(** [MakeDay(year, month, date)]: the day number of the first of the month
    ([month] may lie outside 0..11 and carries into the year) plus
    [date - 1]; [date] may lie outside the month. *)
Definition MakeDay (year month date : Z) : Z :=
  let ym := year + month / 12 in
  let mn := month mod 12 in
  let leap := if DaysInYear ym =? 366 then 1 else 0 in
  DayFromYear ym + DaysBeforeMonth mn leap + date - 1.

Definition MakeDate (day time : Z) : Z := day * msPerDay + time.

End ES.

(* ================================================================== *)
(** * Strings of numbers and of dates *)
(* ================================================================== *)

Local Open Scope string_scope.

(** [Number::toString] on an integer: its decimal digits, with a minus
    sign when negative. *)
Definition toString (n : Z) : string :=
  NilZero.string_of_int (Z.to_int n).

Fixpoint zeros (k : nat) : string :=
  match k with
  | O => EmptyString
  | S k' => String "0" (zeros k')
  end.

(** [ToZeroPaddedDecimalString(n, minLength)] for [0 <= n]. *)
Definition ToZeroPaddedDecimalString (n : Z) (minLength : nat) : string :=
  let s := NilZero.string_of_uint (N.to_uint (Z.to_N n)) in
  zeros (minLength - String.length s) ++ s.

(** The number that a string of decimal digits writes, if it is one. *)
Definition decimalValue (s : string) : option N :=
  option_map N.of_uint (NilEmpty.uint_of_string s).

Definition WeekDayName (wd : Z) : string :=
  match wd with
  | 0 => "Sun" | 1 => "Mon" | 2 => "Tue" | 3 => "Wed"
  | 4 => "Thu" | 5 => "Fri" | _ => "Sat"
  end%Z.

Definition MonthName (m : Z) : string :=
  match m with
  | 0 => "Jan" | 1 => "Feb" | 2 => "Mar" | 3 => "Apr"
  | 4 => "May" | 5 => "Jun" | 6 => "Jul" | 7 => "Aug"
  | 8 => "Sep" | 9 => "Oct" | 10 => "Nov" | _ => "Dec"
  end%Z.

(** The year of a date string: [yearSign] (a minus sign for the years
    before year 0) and [paddedYear] (at least four digits). *)
Definition yearString (yv : Z) : string :=
  let yearSign := if (0 <=? yv)%Z then "" else "-" in
  let paddedYear := ToZeroPaddedDecimalString (Z.abs yv) 4 in
  yearSign ++ paddedYear.

(** [DateString(tv)] of ECMAScript, on a local time value:
    weekday, month, day on two digits, year on at least four. *)
Definition DateString (tv : Z) : string :=
  WeekDayName (ES.WeekDay tv) ++ " " ++
  MonthName (ES.MonthFromTime tv) ++ " " ++
  ToZeroPaddedDecimalString (ES.DateFromTime tv) 2 ++ " " ++
  yearString (ES.YearFromTime tv).

Local Close Scope string_scope.

(* ================================================================== *)
(** * The host's time zone and the methods of [Date] *)
(* ================================================================== *)

(** [LocalTZA t isUTC] is the offset of local time from UTC, in
    milliseconds: at the UTC instant [t] when [isUTC], and for the local
    time value [t] otherwise. *)
Class TimeZone : Type := { LocalTZA : Z -> bool -> Z }.

(** A [Date] object is its time value (milliseconds since the epoch, UTC). *)
Definition Date : Type := Z.

Section DateMethods.

Context {tz : TimeZone}.

Definition LocalTime (t : Z) : Z := t + LocalTZA t true.
Definition UTC (t : Z) : Z := t - LocalTZA t false.

Definition getTime (d : Date) : Z := d.
Definition getDay (d : Date) : Z := ES.WeekDay (LocalTime d).
Definition getDate (d : Date) : Z := ES.DateFromTime (LocalTime d).
Definition getMonth (d : Date) : Z := ES.MonthFromTime (LocalTime d).
Definition getFullYear (d : Date) : Z := ES.YearFromTime (LocalTime d).
Definition getHours (d : Date) : Z := ES.HourFromTime (LocalTime d).
Definition getMinutes (d : Date) : Z := ES.MinFromTime (LocalTime d).
Definition getSeconds (d : Date) : Z := ES.SecFromTime (LocalTime d).
Definition getMilliseconds (d : Date) : Z := ES.msFromTime (LocalTime d).

(** [d.setDate(dt)]: the day of the month is replaced, the local time of
    day is kept. *)
Definition setDate (d : Date) (dt : Z) : Date :=
  let t := LocalTime d in
  let newDate :=
    ES.MakeDate (ES.MakeDay (ES.YearFromTime t) (ES.MonthFromTime t) dt)
                (ES.TimeWithinDay t) in
  UTC newDate.

(** [d.setHours(hour, min, sec, ms)]: the local day is kept. *)
Definition setHours (d : Date) (hour min sec ms : Z) : Date :=
  let t := LocalTime d in
  let date := ES.MakeDate (ES.Day t) (ES.MakeTime hour min sec ms) in
  UTC date.

Definition toDateString (d : Date) : string := DateString (LocalTime d).

(** The local time value [x] is the local time of an instant of the zone
    (it is not skipped by a change of the clocks). *)
Definition localTimeExists (x : Z) : Prop := LocalTime (UTC x) = x.

(** The day number of the Monday that starts the local week of [d]:
    six days before a Sunday, else the Monday on or before the day. *)
Definition mondayOf (d : Date) : Z :=
  ES.Day (LocalTime d) - (ES.WeekDay (LocalTime d) + 6) mod 7.

(** [d.toLocaleDateString('en-US', { month: 'short' })]. *)
Definition toLocaleDateString_en_US_month_short (d : Date) : string :=
  MonthName (getMonth d).

End DateMethods.

(** Zones used in examples. *)

(** A zone that keeps one offset all year. *)
Definition fixedOffset (offset : Z) : TimeZone :=
  {| LocalTZA := fun _ _ => offset |}.

Definition utcZone : TimeZone := fixedOffset 0.

(** A zone whose clocks go from offset [before] to the larger offset
    [after] at the UTC instant [change].  The local times skipped by the
    change are read with the offset in force before it. *)
Definition clocksForward (before after change : Z) : TimeZone :=
  {| LocalTZA := fun t (isUTC : bool) =>
       if isUTC
       then (if t <? change then before else after)
       else (if t <? change + after then before else after) |}.

(** America/New_York around 9 March 2025: UTC-5 until 07:00 UTC
    (02:00 local), UTC-4 from then on. *)
Definition newYork2025 : TimeZone :=
  clocksForward (-5 * ES.msPerHour) (-4 * ES.msPerHour) 1741503600000.

(** Asia/Tehran around 22 March 2021: UTC+3:30 until 20:30 UTC of the 21st
    (24:00 local), UTC+4:30 from then on. *)
Definition tehran2021 : TimeZone :=
  clocksForward (3 * ES.msPerHour + 30 * ES.msPerMinute)
                (4 * ES.msPerHour + 30 * ES.msPerMinute) 1616358600000.

(* ================================================================== *)
(** * The data model ([types.ts]) *)
(* ================================================================== *)

(** JavaScript numbers enter only through [0] and [+]. *)
Class Number (num : Type) : Type := {
  num_zero : num;
  num_add : num -> num -> num
}.

#[export] Instance Z_Number : Number Z := {| num_zero := 0; num_add := Z.add |}.

Section Types.

Variable num : Type.

Record Transaction : Type := {
  id : string;
  name : string;
  amount : num;
  timestamp : Date
}.

Record WeekData : Type := {
  weekStart : Date;
  transactions : list Transaction;
  dailyTotal : num;
  weeklyTotal : num
}.

Record BudgetData : Type := {
  currentWeek : WeekData;
  previousWeeks : list WeekData
}.

End Types.

Arguments id {num} _.
Arguments name {num} _.
Arguments amount {num} _.
Arguments timestamp {num} _.
Arguments weekStart {num} _.
Arguments transactions {num} _.
Arguments dailyTotal {num} _.
Arguments weeklyTotal {num} _.
Arguments currentWeek {num} _.
Arguments previousWeeks {num} _.
Arguments Build_Transaction {num} _ _ _ _.
Arguments Build_WeekData {num} _ _ _ _.
Arguments Build_BudgetData {num} _ _.

(* ================================================================== *)
(** * The clock and the store: a state monad *)
(* ================================================================== *)

Section Effects.

Context {num : Type}.

(** [clock k] is the value of the system clock at its [k]-th reading and
    [reads] counts the readings made so far.  [saved] is the ledger last
    written under the storage key (the value that its JSON text
    serialises); when [storageFails], [AsyncStorage.setItem] rejects. *)
Record World : Type := {
  clock : nat -> Z;
  reads : nat;
  saved : option (BudgetData num);
  storageFails : bool
}.

Definition IO (A : Type) : Type := World -> A * World.

Definition ret {A : Type} (a : A) : IO A := fun w => (a, w).

Definition bind {A B : Type} (c : IO A) (k : A -> IO B) : IO B :=
  fun w => let (a, w') := c w in k a w'.

(** The instant that the next reading of the clock returns. *)
Definition now (w : World) : Z := clock w (reads w).

Definition tick (w : World) : World :=
  {| clock := clock w; reads := S (reads w);
     saved := saved w; storageFails := storageFails w |}.

(** The value of the [k]-th next reading of the clock, counted from 0. *)
Definition reading (w : World) (k : nat) : Z := clock w (reads w + k)%nat.

(** The world after [k] further readings of the clock. *)
Definition elapse (k : nat) (w : World) : World := Nat.iter k tick w.

(** [new Date()]. *)
Definition newDate : IO Date := fun w => (now w, tick w).

(** [Date.now()]. *)
Definition Date_now : IO Z := fun w => (now w, tick w).

(** [AsyncStorage.setItem(STORAGE_KEY, JSON.stringify(data))]; the result
    tells whether the promise was fulfilled. *)
Definition AsyncStorage_setItem (data : BudgetData num) : IO bool :=
  fun w =>
    if storageFails w then (false, w)
    else (true, {| clock := clock w; reads := reads w;
                   saved := Some data; storageFails := storageFails w |}).

(** A computation whose only effect is to read the clock. *)
Definition readsClockOnly {A : Type} (c : IO A) : Prop :=
  forall w, exists k, snd (c w) = elapse k w.

Fixpoint mapM {A B : Type} (f : A -> IO B) (l : list A) : IO (list B) :=
  match l with
  | [] => ret []
  | x :: l' => bind (f x) (fun y => bind (mapM f l') (fun ys => ret (y :: ys)))
  end.

End Effects.

(** A clock that returns the instants of [l] in turn, then stays at the
    last of them. *)
Definition clockOf (l : list Z) : nat -> Z := fun k => nth k l (last l 0).

Arguments World : clear implicits.
Arguments IO : clear implicits.
Arguments readsClockOnly {num A} c.

Notation "x <- c ;; k" := (bind c (fun x => k))
  (at level 61, c at next level, right associativity).
Notation "c ;;; k" := (bind c (fun _ => k))
  (at level 61, right associativity).

(* ================================================================== *)
(** * Week calendar helpers and totals ([utils.ts]) *)
(* ================================================================== *)

Section Utils.

Context {tz : TimeZone} {num : Type} {numOps : Number num}.

(** Get the start of the week (Monday) for a given date. *)
Definition getWeekStart (date : Date) : Date :=
  let d := date in
  let day := getDay d in
  let diff := getDate d - day + (if day =? 0 then -6 else 1) in
  let d := setDate d diff in
  let d := setHours d 0 0 0 0 in
  d.

(** Get the end of the week (Sunday) for a given date. *)
Definition getWeekEnd (date : Date) : Date :=
  let weekStart := getWeekStart date in
  let weekEnd := weekStart in
  let weekEnd := setDate weekEnd (getDate weekStart + 6) in
  let weekEnd := setHours weekEnd 23 59 59 999 in
  weekEnd.

(** Check if two dates are in the same week. *)
Definition isSameWeek (date1 date2 : Date) : bool :=
  let week1Start := getWeekStart date1 in
  let week2Start := getWeekStart date2 in
  getTime week1Start =? getTime week2Start.

(** Check if two dates are on the same day. *)
Definition isSameDay (date1 date2 : Date) : bool :=
  String.eqb (toDateString date1) (toDateString date2).

(** The two dates have the same local calendar date: year, month and
    day of the month. *)
Definition sameLocalDate (date1 date2 : Date) : bool :=
  (getFullYear date1 =? getFullYear date2) &&
  (getMonth date1 =? getMonth date2) &&
  (getDate date1 =? getDate date2).

(** [.reduce((total, transaction) => total + transaction.amount, 0)]. *)
Definition sumAmounts (l : list (Transaction num)) : num :=
  fold_left (fun total transaction => num_add total (amount transaction))
            l num_zero.

(** Calculate daily total for a given date. *)
Definition calculateDailyTotal
    (transactions : list (Transaction num)) (date : Date) : num :=
  sumAmounts
    (filter (fun transaction => isSameDay (timestamp transaction) date)
            transactions).

(** Calculate weekly total for a given week. *)
Definition calculateWeeklyTotal
    (transactions : list (Transaction num)) (weekStart : Date) : num :=
  let weekEnd := getWeekEnd weekStart in
  sumAmounts
    (filter (fun transaction =>
               (weekStart <=? timestamp transaction) &&
               (timestamp transaction <=? weekEnd))
            transactions).

(** Create a new week data object. *)
Definition createWeekData
    (weekStart : Date) (transactions : list (Transaction num))
    : IO num (WeekData num) :=
  today <- newDate ;;
  let dailyTotal := calculateDailyTotal transactions today in
  let weeklyTotal := calculateWeeklyTotal transactions weekStart in
  ret {| weekStart := weekStart;
         transactions := transactions;
         dailyTotal := dailyTotal;
         weeklyTotal := weeklyTotal |}.

(** Generate week label for display. *)
Definition getWeekLabel (weekStart : Date) : string :=
  let weekEnd := getWeekEnd weekStart in
  let startMonth := toLocaleDateString_en_US_month_short weekStart in
  let startDay := getDate weekStart in
  let endMonth := toLocaleDateString_en_US_month_short weekEnd in
  let endDay := getDate weekEnd in
  if getMonth weekStart =? getMonth weekEnd
  then (startMonth ++ " " ++ toString startDay ++ "-" ++ toString endDay)%string
  else (startMonth ++ " " ++ toString startDay ++ " - " ++
        endMonth ++ " " ++ toString endDay)%string.

End Utils.

(* ================================================================== *)
(** * The ledger operations ([storage.ts]) *)
(* ================================================================== *)

Section Storage.

Context {tz : TimeZone} {num : Type} {numOps : Number num}.

(** Save budget data to storage; a rejected write is logged and dropped. *)
Definition saveBudgetData (data : BudgetData num) : IO num unit :=
  _ <- AsyncStorage_setItem data ;;
  ret tt.

(** The closure [updateWeek] of [removeTransaction]. *)
Definition updateWeek (targetWeekStart : Date) (transactionId : string)
    (week : WeekData num) : IO num (WeekData num) :=
  if negb (isSameWeek (weekStart week) targetWeekStart) then ret week
  else
    let filtered :=
      filter (fun t => negb (String.eqb (id t) transactionId))
             (transactions week) in
    createWeekData (weekStart week) filtered.

(** Remove a transaction by id from a specific week and persist. *)
Definition removeTransaction (currentData : BudgetData num)
    (transactionId : string) (weekStartToEdit : Date)
    : IO num (BudgetData num) :=
  let targetWeekStart := getWeekStart weekStartToEdit in
  updatedCurrentWeek <-
    updateWeek targetWeekStart transactionId (currentWeek currentData) ;;
  updatedPreviousWeeks <-
    mapM (updateWeek targetWeekStart transactionId)
         (previousWeeks currentData) ;;
  let updatedData :=
    {| currentWeek := updatedCurrentWeek;
       previousWeeks := updatedPreviousWeeks |} in
  saveBudgetData updatedData ;;;
  ret updatedData.

(** Add a new transaction. *)
Definition addTransaction (name : string) (amount : num)
    (currentData : BudgetData num) : IO num (BudgetData num) :=
  idNow <- Date_now ;;
  stamp <- newDate ;;
  let newTransaction :=
    {| id := toString idNow; name := name;
       amount := amount; timestamp := stamp |} in
  today <- newDate ;;
  let currentWeekStart := getWeekStart today in
  if isSameWeek (weekStart (currentWeek currentData)) currentWeekStart then
    let updatedTransactions :=
      transactions (currentWeek currentData) ++ [newTransaction] in
    updatedCurrentWeek <-
      createWeekData currentWeekStart updatedTransactions ;;
    let updatedData :=
      {| currentWeek := updatedCurrentWeek;
         previousWeeks := previousWeeks currentData |} in
    saveBudgetData updatedData ;;;
    ret updatedData
  else
    let updatedPreviousWeeks :=
      previousWeeks currentData ++ [currentWeek currentData] in
    newCurrentWeek <- createWeekData currentWeekStart [newTransaction] ;;
    let updatedData :=
      {| currentWeek := newCurrentWeek;
         previousWeeks := updatedPreviousWeeks |} in
    saveBudgetData updatedData ;;;
    ret updatedData.

(** All the buckets of a ledger: the current one, then the history in
    its order. *)
Definition buckets (data : BudgetData num) : list (WeekData num) :=
  currentWeek data :: previousWeeks data.

(** The default ledger of [loadBudgetData]: an empty bucket for the
    present week and no history. *)
Definition defaultBudgetData : IO num (BudgetData num) :=
  today <- newDate ;;
  let currentWeekStart := getWeekStart today in
  cw <- createWeekData currentWeekStart [] ;;
  ret {| currentWeek := cw; previousWeeks := [] |}.

End Storage.

(** The calendar helpers and the operations are unfolded by name only. *)
Arguments getWeekStart : simpl never.
Arguments getWeekEnd : simpl never.
Arguments isSameWeek : simpl never.
Arguments isSameDay : simpl never.
Arguments toString : simpl never.
Arguments sumAmounts : simpl never.
Arguments calculateDailyTotal : simpl never.
Arguments calculateWeeklyTotal : simpl never.
Arguments createWeekData : simpl never.
Arguments getWeekLabel : simpl never.
Arguments updateWeek : simpl never.
Arguments removeTransaction : simpl never.
Arguments addTransaction : simpl never.
Arguments saveBudgetData : simpl never.

(* ================================================================== *)
(** * The delete action of the transaction list ([App.tsx]) *)
(* ================================================================== *)

From Stdlib Require Import Sorted.

Section App.

Context {tz : TimeZone} {num : Type} {numOps : Number num}.

(** The [onPress] of the "Delete" button of a transaction [item] shown
    for the week [selectedWeek]: the transaction is removed from the
    ledger, and the week shown afterwards is the bucket of the updated
    ledger that is in the week of [selectedWeek], the current one first,
    else the first such bucket of the history, else the current one.  The
    result is the new [budgetData] and the new [selectedWeek]. *)
Definition deleteOnPress (budgetData : BudgetData num) (itemId : string)
    (selectedWeek : WeekData num)
    : IO num (BudgetData num * WeekData num) :=
  updated <-
    removeTransaction budgetData itemId (weekStart selectedWeek) ;;
  let stillSelected :=
    if isSameWeek (weekStart (currentWeek updated)) (weekStart selectedWeek)
    then currentWeek updated
    else
      match find (fun w => isSameWeek (weekStart w) (weekStart selectedWeek))
                 (previousWeeks updated) with
      | Some w => w
      | None => currentWeek updated
      end in
  ret (updated, stillSelected).

End App.

Arguments deleteOnPress : simpl never.

(* ================================================================== *)
(** * A condition on local times *)
(* ================================================================== *)

Section ZoneConditions.

Context {tz : TimeZone}.

(** The zone reads the local time value [x] on the day of [x]: [x] is
    the local time of an instant, or a change of the clocks skips it
    without leaving its day. *)
Definition dayKept (x : Z) : Prop :=
  ES.Day (LocalTime (UTC x)) = ES.Day x.

End ZoneConditions.

(* ================================================================== *)
(** * Conditions on ledgers *)
(* ================================================================== *)

Section LedgerConditions.

Context {tz : TimeZone} {num : Type} {numOps : Number num}.

(** Every transaction of the bucket has its timestamp within the week
    that [calculateWeeklyTotal] counts for the bucket's start. *)
Definition inOwnWeek (week : WeekData num) : Prop :=
  forall t, In t (transactions week) ->
    weekStart week <= timestamp t <= getWeekEnd (weekStart week).

(** The stored week total is the total of all the bucket's transactions. *)
Definition weeklyTotalExact (week : WeekData num) : Prop :=
  weeklyTotal week = sumAmounts (transactions week).

(** The two conditions hold of every bucket of the ledger. *)
Definition totalsExact (data : BudgetData num) : Prop :=
  Forall (fun week => inOwnWeek week /\ weeklyTotalExact week)
         (buckets data).

(** Every bucket starts at a week start, and the starts of the history
    followed by the start of the current bucket increase strictly. *)
Definition historyOrdered (data : BudgetData num) : Prop :=
  (forall week, In week (buckets data) ->
     getWeekStart (weekStart week) = weekStart week) /\
  StronglySorted Z.lt
    (map weekStart (previousWeeks data ++ [currentWeek data])).

End LedgerConditions.

(* ================================================================== *)
(** * The display preference in the key-value store ([storage.ts]) *)
(* ================================================================== *)

Module Preferences.

Local Open Scope string_scope.

(** The store of the device: the string kept under each key, which of
    its operations reject ([rejects k] for the [k]-th call), and the
    number of calls made so far. *)
Record AsyncStorage : Type := {
  items : string -> option string;
  rejects : nat -> bool;
  calls : nat
}.

(** The outcome of a promise. *)
Inductive Settled (A : Type) : Type :=
| Fulfilled (a : A)
| Rejected.

Arguments Fulfilled {A} a.
Arguments Rejected {A}.

Definition called (s : AsyncStorage) : AsyncStorage :=
  {| items := items s; rejects := rejects s; calls := S (calls s) |}.

(** [AsyncStorage.getItem(key)]: the string under the key, or [null]. *)
Definition getItem (key : string) (s : AsyncStorage)
    : Settled (option string) * AsyncStorage :=
  if rejects s (calls s) then (Rejected, called s)
  else (Fulfilled (items s key), called s).

(** [AsyncStorage.setItem(key, value)]. *)
Definition setItem (key value : string) (s : AsyncStorage)
    : Settled unit * AsyncStorage :=
  if rejects s (calls s) then (Rejected, called s)
  else (Fulfilled tt,
        {| items := fun k => if String.eqb k key then Some value
                             else items s k;
           rejects := rejects s; calls := S (calls s) |}).

Definition STORAGE_KEY : string := "budget_data".
Definition DARK_MODE_KEY : string := "dark_mode_preference".

(** [Boolean.prototype.toString]. *)
Definition Boolean_toString (b : bool) : string :=
  if b then "true" else "false".

(** Load dark mode preference. *)
Definition loadDarkModePreference (s : AsyncStorage) : bool * AsyncStorage :=
  match getItem DARK_MODE_KEY s with
  | (Fulfilled preference, s') =>
      (match preference with
       | Some p => String.eqb p "true"
       | None => false
       end, s')
  | (Rejected, s') => (false, s')
  end.

(** Save dark mode preference; a rejected write is logged and dropped. *)
Definition saveDarkModePreference (isDarkMode : bool) (s : AsyncStorage)
    : AsyncStorage :=
  snd (setItem DARK_MODE_KEY (Boolean_toString isDarkMode) s).

(** The toggle of the header: the preference is negated and saved. *)
Definition toggleOnPress (isDarkMode : bool) (s : AsyncStorage)
    : bool * AsyncStorage :=
  let newDarkMode := negb isDarkMode in
  (newDarkMode, saveDarkModePreference newDarkMode s).

End Preferences.

(* ================================================================== *)
(** * Instants, worlds and ledgers used in examples *)
(* ================================================================== *)

(** Amounts are in cents in the examples, on the numbers of [Z]. *)

(** Monday 10 February 2025, 00:00 UTC. *)
Definition mon_2025_02_10 : Date := 1739145600000.
(** Monday 3 March 2025, 00:00 UTC. *)
Definition mon_2025_03_03 : Date := 1740960000000.
(** Wednesday 5 March 2025, 17:00 UTC. *)
Definition wed_2025_03_05 : Date := 1741194000000.
(** Thursday 6 March 2025, 17:00 UTC. *)
Definition thu_2025_03_06 : Date := 1741280400000.
(** Monday 7 July 2025 and Monday 28 July 2025, 00:00 UTC. *)
Definition mon_2025_07_07 : Date := 1751846400000.
Definition mon_2025_07_28 : Date := 1753660800000.
(** Wednesday 24 March 2021, 08:30 UTC (13:00 in Tehran). *)
Definition wed_2021_03_24 : Date := 1616574600000.

(** A world whose clock returns the instants of [l], with an empty store. *)
Definition worldAt (l : list Z) : World Z :=
  {| clock := clockOf l; reads := 0; saved := None; storageFails := false |}.

Definition coffee : Transaction Z :=
  {| id := "1741194000000"; name := "Coffee";
     amount := 450; timestamp := wed_2025_03_05 |}.

Definition lunch : Transaction Z :=
  {| id := "1741194000000"; name := "Lunch";
     amount := 1200; timestamp := wed_2025_03_05 |}.

Definition rent : Transaction Z :=
  {| id := "1739145600000"; name := "Rent";
     amount := 90000; timestamp := mon_2025_02_10 |}.

(** The ledger after a first purchase on Wednesday 5 March 2025. *)
Definition ledgerWithCoffee : BudgetData Z :=
  {| currentWeek :=
       {| weekStart := mon_2025_03_03; transactions := [coffee];
          dailyTotal := 450; weeklyTotal := 450 |};
     previousWeeks := [] |}.

(** A ledger last used three weeks before, with one bucket of history. *)
Definition staleLedger : BudgetData Z :=
  {| currentWeek :=
       {| weekStart := mon_2025_02_10; transactions := [rent];
          dailyTotal := 0; weeklyTotal := 90000 |};
     previousWeeks :=
       [ {| weekStart := mon_2025_02_10 - 7 * ES.msPerDay;
            transactions := []; dailyTotal := 0; weeklyTotal := 0 |} ] |}.

(** A bucket in which two transactions carry the same id. *)
Definition ledgerWithTwins : BudgetData Z :=
  {| currentWeek :=
       {| weekStart := mon_2025_03_03; transactions := [coffee; lunch];
          dailyTotal := 1650; weeklyTotal := 1650 |};
     previousWeeks := [] |}.

(** A zone five hours behind UTC all year. *)
Definition fiveHoursBehind : TimeZone := fixedOffset (-5 * ES.msPerHour).

(** A store of the device that holds nothing and rejects no call. *)
Definition emptyStorage : Preferences.AsyncStorage :=
  {| Preferences.items := fun _ => None;
     Preferences.rejects := fun _ => false;
     Preferences.calls := 0 |}.

(* ================================================================== *)
(** * Facts about the clock and the state monad *)
(* ================================================================== *)

Section MonadFacts.

Context {num : Type}.

Implicit Types w : World num.

Lemma reads_elapse k w : reads (elapse k w) = (reads w + k)%nat.
Proof.
  unfold elapse. induction k as [|k IH]; simpl.
  - now rewrite Nat.add_0_r.
  - rewrite IH. lia.
Qed.

Lemma clock_elapse k w : clock (elapse k w) = clock w.
Proof. unfold elapse. induction k as [|k IH]; simpl; auto. Qed.

Lemma now_elapse k w : now (elapse k w) = reading w k.
Proof. unfold now, reading. now rewrite clock_elapse, reads_elapse. Qed.

Lemma elapse_tick k w : elapse k (tick w) = elapse (S k) w.
Proof.
  unfold elapse. induction k as [|k IH]; simpl; auto.
  now rewrite IH.
Qed.

Lemma elapse_elapse j k w : elapse j (elapse k w) = elapse (k + j) w.
Proof.
  induction j as [|j IH]; simpl.
  - now rewrite Nat.add_0_r.
  - rewrite Nat.add_succ_r. unfold elapse in *. simpl. now rewrite <- IH.
Qed.

Lemma reading_0 w : reading w 0 = now w.
Proof. unfold reading, now. now rewrite Nat.add_0_r. Qed.

Lemma mapM_nth {A B : Type} (f : A -> IO num B) :
  (forall a, readsClockOnly (f a)) ->
  forall l w i a,
    nth_error l i = Some a ->
    exists k, nth_error (fst (mapM f l w)) i = Some (fst (f a (elapse k w))).
Proof.
  intros Hf l. induction l as [|x l IH]; intros w i a Hi.
  - destruct i; discriminate.
  - simpl. unfold bind, ret.
    destruct (f x w) as [y w1] eqn:Ex.
    destruct (mapM f l w1) as [ys w2] eqn:El. simpl.
    destruct i as [|i]; simpl in *.
    + exists 0%nat. injection Hi as <-. simpl. now rewrite Ex.
    + destruct (Hf x w) as [k Hk]. rewrite Ex in Hk. simpl in Hk. subst w1.
      destruct (IH (elapse k w) i a Hi) as [j Hj].
      rewrite El in Hj. simpl in Hj.
      exists (k + j)%nat. now rewrite <- elapse_elapse.
Qed.

Lemma mapM_length {A B : Type} (f : A -> IO num B) l w :
  List.length (fst (mapM f l w)) = List.length l.
Proof.
  revert w. induction l as [|x l IH]; intros w; simpl; auto.
  unfold bind, ret. destruct (f x w) as [y w1].
  specialize (IH w1). destruct (mapM f l w1) as [ys w2]. simpl in *.
  now rewrite IH.
Qed.

End MonadFacts.

(* ================================================================== *)
(** * The ledger operations: rebuilding, adding, removing *)
(* ================================================================== *)

Section LedgerFacts.

Context {tz : TimeZone} {num : Type} {numOps : Number num}.

Implicit Types (w : World num) (week : WeekData num) (data : BudgetData num).

Lemma createWeekData_fst ws txs w :
  fst (createWeekData ws txs w) =
  {| weekStart := ws; transactions := txs;
     dailyTotal := calculateDailyTotal txs (now w);
     weeklyTotal := calculateWeeklyTotal txs ws |}.
Proof. reflexivity. Qed.

Lemma createWeekData_snd ws txs w : snd (createWeekData ws txs w) = tick w.
Proof. reflexivity. Qed.

Lemma createWeekData_readsClockOnly ws txs :
  readsClockOnly (createWeekData ws txs).
Proof. intros w. now exists 1%nat. Qed.

Lemma updateWeek_readsClockOnly target tid week :
  readsClockOnly (updateWeek target tid week).
Proof.
  intros w. unfold updateWeek.
  destruct (isSameWeek (weekStart week) target); simpl.
  - now exists 1%nat.
  - now exists 0%nat.
Qed.

Lemma updateWeek_other target tid week w :
  isSameWeek (weekStart week) target = false ->
  fst (updateWeek target tid week w) = week.
Proof. intros H. unfold updateWeek. now rewrite H. Qed.

Lemma updateWeek_target target tid week w :
  isSameWeek (weekStart week) target = true ->
  fst (updateWeek target tid week w) =
  {| weekStart := weekStart week;
     transactions :=
       filter (fun t => negb (String.eqb (id t) tid)) (transactions week);
     dailyTotal :=
       calculateDailyTotal
         (filter (fun t => negb (String.eqb (id t) tid)) (transactions week))
         (now w);
     weeklyTotal :=
       calculateWeeklyTotal
         (filter (fun t => negb (String.eqb (id t) tid)) (transactions week))
         (weekStart week) |}.
Proof. intros H. unfold updateWeek. now rewrite H. Qed.

Lemma removeTransaction_currentWeek data tid target w :
  currentWeek (fst (removeTransaction data tid target w)) =
  fst (updateWeek (getWeekStart target) tid (currentWeek data) w).
Proof.
  unfold removeTransaction, bind.
  destruct (updateWeek _ _ _ w) as [cw w1].
  destruct (mapM _ _ w1) as [pw w2]. simpl.
  now destruct (saveBudgetData _ w2).
Qed.

Lemma removeTransaction_previousWeeks data tid target w :
  previousWeeks (fst (removeTransaction data tid target w)) =
  fst (mapM (updateWeek (getWeekStart target) tid) (previousWeeks data)
            (snd (updateWeek (getWeekStart target) tid (currentWeek data) w))).
Proof.
  unfold removeTransaction, bind.
  destruct (updateWeek _ _ _ w) as [cw w1].
  simpl. destruct (mapM _ _ w1) as [pw w2]. simpl.
  now destruct (saveBudgetData _ w2).
Qed.

(** Every bucket of the history is rewritten by [updateWeek], in its
    place, at some later reading of the clock. *)
Lemma removeTransaction_previousWeeks_nth data tid target w i week :
  nth_error (previousWeeks data) i = Some week ->
  exists k,
    nth_error (previousWeeks (fst (removeTransaction data tid target w))) i =
    Some (fst (updateWeek (getWeekStart target) tid week (elapse k w))).
Proof.
  intros Hi. rewrite removeTransaction_previousWeeks.
  destruct (updateWeek_readsClockOnly (getWeekStart target) tid
              (currentWeek data) w) as [k0 Hk0].
  rewrite Hk0.
  destruct (mapM_nth (updateWeek (getWeekStart target) tid)
              (updateWeek_readsClockOnly (getWeekStart target) tid)
              (previousWeeks data) (elapse k0 w) i week Hi) as [k Hk].
  exists (k0 + k)%nat. now rewrite <- elapse_elapse.
Qed.

Lemma removeTransaction_previousWeeks_length data tid target w :
  List.length (previousWeeks (fst (removeTransaction data tid target w))) =
  List.length (previousWeeks data).
Proof. rewrite removeTransaction_previousWeeks. apply mapM_length. Qed.

(** The ledger that [addTransaction] returns, in each branch. *)
Lemma addTransaction_fst name amount data w :
  fst (addTransaction name amount data w) =
  let newTransaction :=
    {| id := toString (reading w 0); name := name;
       amount := amount; timestamp := reading w 1 |} in
  let currentWeekStart := getWeekStart (reading w 2) in
  if isSameWeek (weekStart (currentWeek data)) currentWeekStart then
    {| currentWeek :=
         fst (createWeekData currentWeekStart
                (transactions (currentWeek data) ++ [newTransaction])
                (elapse 3 w));
       previousWeeks := previousWeeks data |}
  else
    {| currentWeek :=
         fst (createWeekData currentWeekStart [newTransaction] (elapse 3 w));
       previousWeeks := previousWeeks data ++ [currentWeek data] |}.
Proof.
  unfold addTransaction, bind, Date_now, newDate.
  cbv beta iota zeta.
  rewrite <- (reading_0 w), (now_elapse 1 w : now (tick w) = _),
    (now_elapse 2 w : now (tick (tick w)) = _).
  change (tick (tick (tick w))) with (elapse 3 w).
  destruct (isSameWeek _ _);
    unfold createWeekData, saveBudgetData, AsyncStorage_setItem,
      bind, newDate, ret;
    cbv beta iota zeta;
    now destruct (storageFails _).
Qed.

Lemma addTransaction_currentWeek_start name amount data w :
  weekStart (currentWeek (fst (addTransaction name amount data w)))
  = getWeekStart (reading w 2).
Proof.
  rewrite addTransaction_fst. cbv zeta.
  destruct (isSameWeek _ _); rewrite createWeekData_fst; reflexivity.
Qed.

(** Every operation ends by writing the ledger it returns; a rejected
    write leaves the store as it was. *)
Lemma addTransaction_saved name amount data w :
  saved (snd (addTransaction name amount data w)) =
  if storageFails w then saved w
  else Some (fst (addTransaction name amount data w)).
Proof.
  unfold addTransaction, bind, Date_now, newDate.
  cbv beta iota zeta.
  destruct (isSameWeek _ _);
    unfold createWeekData, saveBudgetData, AsyncStorage_setItem,
      bind, newDate, ret;
    cbv beta iota zeta; cbn [storageFails tick];
    now destruct (storageFails w).
Qed.

Lemma mapM_readsClockOnly {A B : Type} (f : A -> IO num B) l :
  (forall a, readsClockOnly (f a)) -> readsClockOnly (mapM f l).
Proof.
  intros Hf. induction l as [|x l IH]; intros w.
  - now exists 0%nat.
  - cbn [mapM]. unfold bind, ret.
    destruct (Hf x w) as [k Hk]. destruct (f x w) as [y w1].
    cbn [snd] in Hk. subst w1.
    destruct (IH (elapse k w)) as [j Hj].
    destruct (mapM f l (elapse k w)) as [ys w2]. cbn [snd] in *. subst w2.
    exists (k + j)%nat. now rewrite elapse_elapse.
Qed.

Lemma storageFails_elapse k w : storageFails (elapse k w) = storageFails w.
Proof. unfold elapse. induction k as [|k IH]; cbn; auto. Qed.

Lemma saved_elapse k w : saved (elapse k w) = saved w.
Proof. unfold elapse. induction k as [|k IH]; cbn; auto. Qed.

Lemma removeTransaction_saved data tid target w :
  saved (snd (removeTransaction data tid target w)) =
  if storageFails w then saved w
  else Some (fst (removeTransaction data tid target w)).
Proof.
  unfold removeTransaction, bind.
  destruct (updateWeek_readsClockOnly (getWeekStart target) tid
              (currentWeek data) w) as [k Hk].
  destruct (updateWeek _ _ _ w) as [cw w1]. cbn [snd] in Hk. subst w1.
  destruct (mapM_readsClockOnly (updateWeek (getWeekStart target) tid)
              (previousWeeks data)
              (updateWeek_readsClockOnly (getWeekStart target) tid)
              (elapse k w)) as [j Hj].
  destruct (mapM _ _ (elapse k w)) as [pw w2]. cbn [snd] in Hj. subst w2.
  unfold saveBudgetData, AsyncStorage_setItem, bind, ret.
  rewrite !storageFails_elapse.
  destruct (storageFails w); cbn [fst snd saved];
    rewrite ?saved_elapse; reflexivity.
Qed.

End LedgerFacts.

(* ================================================================== *)
(** * Properties of [addTransaction] and [removeTransaction] *)
(* ================================================================== *)

Section LedgerClaims.

Context {tz : TimeZone} {num : Type} {numOps : Number num}.

Implicit Types (w : World num) (week : WeekData num) (data : BudgetData num).

(** [removeTransaction] rewrites every bucket in its place with
    [updateWeek], at some reading of the clock. *)
Lemma removeTransaction_buckets_nth data tid target w i week :
  nth_error (buckets data) i = Some week ->
  exists k,
    nth_error (buckets (fst (removeTransaction data tid target w))) i =
    Some (fst (updateWeek (getWeekStart target) tid week (elapse k w))).
Proof.
  unfold buckets. destruct i as [|i]; cbn [nth_error]; intros Hi.
  - injection Hi as <-. exists 0%nat.
    now rewrite removeTransaction_currentWeek.
  - now apply removeTransaction_previousWeeks_nth.
Qed.

Lemma buckets_length data :
  List.length (buckets data) = S (List.length (previousWeeks data)).
Proof. reflexivity. Qed.

Lemma filter_absent_id tid (txs : list (Transaction num)) :
  (forall t, In t txs -> id t <> tid) ->
  filter (fun t => negb (String.eqb (id t) tid)) txs = txs.
Proof.
  induction txs as [|t txs IH]; simpl; intros H; auto.
  destruct (String.eqb_spec (id t) tid) as [E|E]; simpl.
  - exfalso. apply (H t); auto.
  - f_equal. apply IH. intros t' Ht'. apply H. now right.
Qed.

(** A call of [addTransaction] in the world [w] reads the clock four
    times: [reading w 0] gives the id of the new transaction,
    [reading w 1] its timestamp, [reading w 2] is [today], whose week
    decides the branch, and [reading w 3] is the [today] of
    [createWeekData]. *)

(** C1.  When the current bucket's [weekStart] is not in the week of
    [getWeekStart(today)], [addTransaction] returns a ledger whose history
    is the old history followed by the old current bucket (one bucket
    more, earlier entries in their order), and whose current bucket starts
    at [getWeekStart(today)] and holds the new transaction only. *)
Theorem addTransaction_rotates_week name amount data w :
  isSameWeek (weekStart (currentWeek data)) (getWeekStart (reading w 2))
    = false ->
  let updated := fst (addTransaction name amount data w) in
  previousWeeks updated = previousWeeks data ++ [currentWeek data] /\
  List.length (previousWeeks updated)
    = S (List.length (previousWeeks data)) /\
  weekStart (currentWeek updated) = getWeekStart (reading w 2) /\
  transactions (currentWeek updated) =
    [ {| id := toString (reading w 0); name := name;
         amount := amount; timestamp := reading w 1 |} ].
Proof.
  intros H updated. subst updated.
  rewrite addTransaction_fst. cbv zeta. rewrite H.
  rewrite createWeekData_fst. cbn [previousWeeks currentWeek weekStart transactions].
  repeat split; auto.
  rewrite length_app. cbn [List.length]. lia.
Qed.

(** C2.  When the current bucket's [weekStart] is in the week of
    [getWeekStart(today)], [addTransaction] leaves the history as it is
    (no bucket is added) and appends the new transaction after the
    transactions of the current bucket. *)
Theorem addTransaction_same_week name amount data w :
  isSameWeek (weekStart (currentWeek data)) (getWeekStart (reading w 2))
    = true ->
  let updated := fst (addTransaction name amount data w) in
  previousWeeks updated = previousWeeks data /\
  List.length (buckets updated) = List.length (buckets data) /\
  transactions (currentWeek updated) =
    transactions (currentWeek data) ++
    [ {| id := toString (reading w 0); name := name;
         amount := amount; timestamp := reading w 1 |} ].
Proof.
  intros H updated. subst updated.
  rewrite addTransaction_fst. cbv zeta. rewrite H.
  rewrite createWeekData_fst.
  unfold buckets. cbn [previousWeeks currentWeek weekStart transactions].
  repeat split; auto.
Qed.

(** C3.  [removeTransaction] keeps the number of buckets, and returns as
    it was (start, transactions and both totals) every bucket whose
    [weekStart] is not in the week of the normalized target
    [getWeekStart(weekStartToEdit)]. *)
Theorem removeTransaction_other_buckets data tid target w i week :
  nth_error (buckets data) i = Some week ->
  isSameWeek (weekStart week) (getWeekStart target) = false ->
  let updated := fst (removeTransaction data tid target w) in
  nth_error (buckets updated) i = Some week /\
  List.length (buckets updated) = List.length (buckets data).
Proof.
  intros Hi Hother updated. subst updated. split.
  - destruct (removeTransaction_buckets_nth data tid target w i week Hi)
      as [k Hk].
    rewrite Hk. now rewrite updateWeek_other.
  - rewrite !buckets_length. f_equal.
    apply removeTransaction_previousWeeks_length.
Qed.

(** C4, as amended.  When no transaction of the targeted bucket carries
    the given id, [removeTransaction] returns that bucket with the same
    [weekStart] and the same transactions; its [weeklyTotal] is the week
    total of these transactions and its [dailyTotal] is their total for
    the day of a reading of the clock made during the call. *)
Theorem removeTransaction_absent_id data tid target w i week :
  nth_error (buckets data) i = Some week ->
  isSameWeek (weekStart week) (getWeekStart target) = true ->
  (forall t, In t (transactions week) -> id t <> tid) ->
  exists week' k,
    nth_error (buckets (fst (removeTransaction data tid target w))) i
      = Some week' /\
    weekStart week' = weekStart week /\
    transactions week' = transactions week /\
    weeklyTotal week'
      = calculateWeeklyTotal (transactions week) (weekStart week) /\
    dailyTotal week'
      = calculateDailyTotal (transactions week) (reading w k).
Proof.
  intros Hi Htarget Habsent.
  destruct (removeTransaction_buckets_nth data tid target w i week Hi)
    as [k Hk].
  rewrite (updateWeek_target _ _ _ _ Htarget) in Hk.
  rewrite (filter_absent_id tid _ Habsent), now_elapse in Hk.
  eexists. exists k. split; [exact Hk|].
  cbn [weekStart transactions weeklyTotal dailyTotal]. auto.
Qed.

(** C10.  In a targeted bucket [removeTransaction] keeps, in their order,
    exactly the transactions whose id differs from the given one: every
    transaction that carries the id is removed, however many there are. *)
Theorem removeTransaction_removes_every_occurrence data tid target w i week :
  nth_error (buckets data) i = Some week ->
  isSameWeek (weekStart week) (getWeekStart target) = true ->
  exists week',
    nth_error (buckets (fst (removeTransaction data tid target w))) i
      = Some week' /\
    transactions week' =
      filter (fun t => negb (String.eqb (id t) tid)) (transactions week) /\
    (forall t, In t (transactions week') <->
               In t (transactions week) /\ id t <> tid).
Proof.
  intros Hi Htarget.
  destruct (removeTransaction_buckets_nth data tid target w i week Hi)
    as [k Hk].
  rewrite (updateWeek_target _ _ _ _ Htarget) in Hk.
  eexists. split; [exact Hk|].
  cbn [transactions]. split; [reflexivity|].
  intros t. rewrite filter_In.
  destruct (String.eqb_spec (id t) tid); cbn [negb]; intuition congruence.
Qed.

End LedgerClaims.

(* ================================================================== *)
(** * The ledger operations on concrete ledgers (UTC, amounts in cents) *)
(* ================================================================== *)

(** A first purchase on a Wednesday, from the default ledger. *)
Example coffee_on_wednesday :
  let start := defaultBudgetData (tz := utcZone) (worldAt [wed_2025_03_05]) in
  fst (addTransaction (tz := utcZone) "Coffee" 450 (fst start) (snd start))
  = ledgerWithCoffee.
Proof. vm_compute. reflexivity. Qed.

(** A second purchase, the day after: both are in the week, only the
    second is in the day. *)
Example lunch_on_thursday :
  currentWeek
    (fst (addTransaction (tz := utcZone) "Lunch" 1200 ledgerWithCoffee
            (worldAt [thu_2025_03_06])))
  = {| weekStart := mon_2025_03_03;
       transactions :=
         [ coffee;
           {| id := "1741280400000"; name := "Lunch"; amount := 1200;
              timestamp := thu_2025_03_06 |} ];
       dailyTotal := 1200; weeklyTotal := 1650 |}.
Proof. vm_compute. reflexivity. Qed.

(** A first use three weeks after the last one. *)
Example coffee_three_weeks_later :
  let updated :=
    fst (addTransaction (tz := utcZone) "Coffee" 450 staleLedger
           (worldAt [wed_2025_03_05])) in
  List.length (previousWeeks updated) = 2%nat /\
  weekStart (currentWeek updated) = mon_2025_03_03 /\
  List.length (transactions (currentWeek updated)) = 1%nat.
Proof. vm_compute. auto. Qed.

(** Two transactions with one id leave the bucket together. *)
Example twins_removed_together :
  transactions
    (currentWeek
       (fst (removeTransaction (tz := utcZone) ledgerWithTwins
               "1741194000000" thu_2025_03_06 (worldAt [thu_2025_03_06]))))
  = [].
Proof. vm_compute. reflexivity. Qed.

Lemma addTransaction_rotates_week_witness :
  isSameWeek (tz := utcZone) (weekStart (currentWeek staleLedger))
    (getWeekStart (tz := utcZone) (reading (worldAt [wed_2025_03_05]) 2))
    = false /\
  previousWeeks
    (fst (addTransaction (tz := utcZone) "Coffee" 450 staleLedger
            (worldAt [wed_2025_03_05])))
  = previousWeeks staleLedger ++ [currentWeek staleLedger].
Proof.
  split; [vm_compute; reflexivity|].
  apply (addTransaction_rotates_week (tz := utcZone) "Coffee" 450 staleLedger
           (worldAt [wed_2025_03_05])).
  vm_compute; reflexivity.
Defined.

Lemma addTransaction_same_week_witness :
  isSameWeek (tz := utcZone) (weekStart (currentWeek ledgerWithCoffee))
    (getWeekStart (tz := utcZone) (reading (worldAt [thu_2025_03_06]) 2))
    = true /\
  previousWeeks
    (fst (addTransaction (tz := utcZone) "Lunch" 1200 ledgerWithCoffee
            (worldAt [thu_2025_03_06])))
  = previousWeeks ledgerWithCoffee.
Proof.
  split; [vm_compute; reflexivity|].
  apply (addTransaction_same_week (tz := utcZone) "Lunch" 1200
           ledgerWithCoffee (worldAt [thu_2025_03_06])).
  vm_compute; reflexivity.
Defined.

Lemma removeTransaction_other_buckets_witness :
  nth_error (buckets staleLedger) 0 = Some (currentWeek staleLedger) /\
  isSameWeek (tz := utcZone) (weekStart (currentWeek staleLedger))
    (getWeekStart (tz := utcZone) wed_2025_03_05) = false /\
  nth_error
    (buckets (fst (removeTransaction (tz := utcZone) staleLedger
                     "1739145600000" wed_2025_03_05
                     (worldAt [wed_2025_03_05]))))
    0 = Some (currentWeek staleLedger).
Proof.
  split; [reflexivity|]. split; [vm_compute; reflexivity|].
  apply (removeTransaction_other_buckets (tz := utcZone) staleLedger
           "1739145600000" wed_2025_03_05 (worldAt [wed_2025_03_05])
           0 (currentWeek staleLedger)).
  - reflexivity.
  - vm_compute; reflexivity.
Defined.

(** C4, as stated, fails: on Thursday the id ["0"] occurs nowhere in the
    current bucket of [ledgerWithCoffee], and removing it returns the
    bucket with [dailyTotal] 0 instead of 450, Wednesday's purchase
    being no longer of the day. *)
Lemma removeTransaction_absent_id_changes_dailyTotal :
  nth_error (buckets ledgerWithCoffee) 0
    = Some (currentWeek ledgerWithCoffee) /\
  isSameWeek (tz := utcZone) (weekStart (currentWeek ledgerWithCoffee))
    (getWeekStart (tz := utcZone) thu_2025_03_06) = true /\
  (forall t, In t (transactions (currentWeek ledgerWithCoffee)) ->
             id t <> "0"%string) /\
  dailyTotal (currentWeek ledgerWithCoffee) = 450 /\
  dailyTotal
    (currentWeek (fst (removeTransaction (tz := utcZone) ledgerWithCoffee
                         "0" thu_2025_03_06 (worldAt [thu_2025_03_06]))))
    = 0 /\
  nth_error
    (buckets (fst (removeTransaction (tz := utcZone) ledgerWithCoffee
                     "0" thu_2025_03_06 (worldAt [thu_2025_03_06]))))
    0 <> Some (currentWeek ledgerWithCoffee).
Proof.
  split; [reflexivity|]. split; [vm_compute; reflexivity|].
  split; [|split; [reflexivity|split; [vm_compute; reflexivity|]]].
  - intros t [<-|[]]. discriminate.
  - vm_compute. discriminate.
Qed.

Lemma removeTransaction_absent_id_witness :
  exists week' k,
    nth_error
      (buckets (fst (removeTransaction (tz := utcZone) ledgerWithCoffee
                       "0" thu_2025_03_06 (worldAt [thu_2025_03_06]))))
      0 = Some week' /\
    weekStart week' = weekStart (currentWeek ledgerWithCoffee) /\
    transactions week' = transactions (currentWeek ledgerWithCoffee) /\
    weeklyTotal week'
      = calculateWeeklyTotal (tz := utcZone)
          (transactions (currentWeek ledgerWithCoffee))
          (weekStart (currentWeek ledgerWithCoffee)) /\
    dailyTotal week'
      = calculateDailyTotal (tz := utcZone)
          (transactions (currentWeek ledgerWithCoffee))
          (reading (worldAt [thu_2025_03_06]) k).
Proof.
  apply (removeTransaction_absent_id (tz := utcZone) ledgerWithCoffee
           "0" thu_2025_03_06 (worldAt [thu_2025_03_06])
           0 (currentWeek ledgerWithCoffee)).
  - reflexivity.
  - vm_compute; reflexivity.
  - intros t [<-|[]]. discriminate.
Defined.

Lemma removeTransaction_removes_every_occurrence_witness :
  isSameWeek (tz := utcZone) (weekStart (currentWeek ledgerWithTwins))
    (getWeekStart (tz := utcZone) thu_2025_03_06) = true /\
  exists week',
    nth_error
      (buckets (fst (removeTransaction (tz := utcZone) ledgerWithTwins
                       "1741194000000" thu_2025_03_06
                       (worldAt [thu_2025_03_06]))))
      0 = Some week' /\
    transactions week' =
      filter (fun t => negb (String.eqb (id t) "1741194000000"))
             (transactions (currentWeek ledgerWithTwins)) /\
    (forall t, In t (transactions week') <->
               In t (transactions (currentWeek ledgerWithTwins)) /\
               id t <> "1741194000000"%string).
Proof.
  split; [vm_compute; reflexivity|].
  apply (removeTransaction_removes_every_occurrence (tz := utcZone)
           ledgerWithTwins "1741194000000" thu_2025_03_06
           (worldAt [thu_2025_03_06]) 0 (currentWeek ledgerWithTwins)).
  - reflexivity.
  - vm_compute; reflexivity.
Defined.

(* ================================================================== *)
(** * Facts of the calendar arithmetic *)
(* ================================================================== *)

Module ESFacts.

Import ES.

Lemma DaysInYear_cases y : DaysInYear y = 365 \/ DaysInYear y = 366.
Proof.
  unfold DaysInYear.
  destruct (y mod 4 =? 0), (y mod 100 =? 0), (y mod 400 =? 0); cbn; auto.
Qed.

Lemma DayFromYear_succ y : DayFromYear (y + 1) = DayFromYear y + DaysInYear y.
Proof.
  unfold DayFromYear, DaysInYear.
  destruct (Z.eqb_spec (y mod 4) 0) as [E4|E4];
  destruct (Z.eqb_spec (y mod 100) 0) as [E100|E100];
  destruct (Z.eqb_spec (y mod 400) 0) as [E400|E400]; cbn [negb];
  (Z.to_euclidean_division_equations; lia).
Qed.

Lemma YearFromTime_spec t :
  DayFromYear (YearFromTime t) <= Day t < DayFromYear (YearFromTime t + 1).
Proof.
  unfold YearFromTime. cbv zeta.
  set (d := Day t). clearbody d.
  set (y := 1970 + 400 * d / 146097).
  assert (Hlo : DayFromYear (y - 1) <= d).
  { subst y. unfold DayFromYear. (Z.to_euclidean_division_equations; lia). }
  assert (Hhi : d < DayFromYear (y + 2)).
  { subst y. unfold DayFromYear. (Z.to_euclidean_division_equations; lia). }
  clearbody y.
  destruct (Z.leb_spec (DayFromYear (y + 1)) d) as [H1|H1].
  - replace (y + 1 + 1) with (y + 2) by lia. lia.
  - destruct (Z.ltb_spec d (DayFromYear y)) as [H2|H2].
    + replace (y - 1 + 1) with y by lia. lia.
    + lia.
Qed.

Lemma DayFromYear_lt y y' : y < y' -> DayFromYear y < DayFromYear y'.
Proof.
  intros H. unfold DayFromYear. Z.to_euclidean_division_equations; lia.
Qed.

Lemma YearFromTime_unique t y :
  DayFromYear y <= Day t < DayFromYear (y + 1) -> YearFromTime t = y.
Proof.
  intros [Hlo Hhi]. pose proof (YearFromTime_spec t) as [Slo Shi].
  destruct (Z.lt_trichotomy (YearFromTime t) y) as [L|[E|G]]; auto; exfalso.
  - assert (DayFromYear (YearFromTime t + 1) <= DayFromYear y).
    { destruct (Z.eq_dec (YearFromTime t + 1) y) as [->|N]; [lia|].
      apply Z.lt_le_incl, DayFromYear_lt. lia. }
    lia.
  - assert (DayFromYear (y + 1) <= DayFromYear (YearFromTime t)).
    { destruct (Z.eq_dec (y + 1) (YearFromTime t)) as [->|N]; [lia|].
      apply Z.lt_le_incl, DayFromYear_lt. lia. }
    lia.
Qed.

Lemma InLeapYear_cases t :
  (InLeapYear t = 0 /\ DaysInYear (YearFromTime t) = 365) \/
  (InLeapYear t = 1 /\ DaysInYear (YearFromTime t) = 366).
Proof.
  unfold InLeapYear.
  destruct (DaysInYear_cases (YearFromTime t)) as [E|E]; rewrite E; cbn; auto.
Qed.

Lemma DayWithinYear_range t :
  0 <= DayWithinYear t < 365 + InLeapYear t.
Proof.
  unfold DayWithinYear.
  pose proof (YearFromTime_spec t) as [Slo Shi].
  rewrite DayFromYear_succ in Shi.
  destruct (InLeapYear_cases t) as [[-> E]|[-> E]]; lia.
Qed.

Lemma MonthFromTime_range t : 0 <= MonthFromTime t <= 11.
Proof.
  unfold MonthFromTime. cbv zeta.
  repeat match goal with |- context [if ?c then _ else _] => destruct c end; lia.
Qed.

(** The table of [DateFromTime] is the day of the year less the days of
    the earlier months. *)
Lemma DateFromTime_eq t :
  DateFromTime t =
  DayWithinYear t - DaysBeforeMonth (MonthFromTime t) (InLeapYear t) + 1.
Proof.
  unfold DateFromTime, MonthFromTime. cbv zeta.
  repeat match goal with |- context [if ?c then _ else _] => destruct c end;
    cbv beta iota delta [DaysBeforeMonth]; lia.
Qed.

Lemma DateFromTime_range t : 1 <= DateFromTime t <= 31.
Proof.
  rewrite DateFromTime_eq. pose proof (DayWithinYear_range t) as R.
  unfold MonthFromTime. cbv zeta.
  destruct (InLeapYear_cases t) as [[E _]|[E _]]; rewrite E in *;
  repeat match goal with
         | |- context [if ?a <? ?b then _ else _] => destruct (Z.ltb_spec a b)
         end; cbv beta iota delta [DaysBeforeMonth]; lia.
Qed.

Lemma MakeDay_of_fields t dt :
  MakeDay (YearFromTime t) (MonthFromTime t) dt = Day t - DateFromTime t + dt.
Proof.
  rewrite DateFromTime_eq. unfold MakeDay. cbv zeta.
  pose proof (MonthFromTime_range t) as R.
  rewrite (Z.div_small (MonthFromTime t) 12), (Z.mod_small (MonthFromTime t) 12),
    Z.add_0_r by lia.
  fold (InLeapYear t). unfold DayWithinYear. lia.
Qed.

Lemma TimeWithinDay_range t : 0 <= TimeWithinDay t < msPerDay.
Proof. unfold TimeWithinDay, msPerDay. apply Z.mod_pos_bound. lia. Qed.

Lemma MakeDate_Day t : MakeDate (Day t) (TimeWithinDay t) = t.
Proof.
  unfold MakeDate, Day, TimeWithinDay, msPerDay.
  pose proof (Z.div_mod t 86400000). lia.
Qed.

Lemma Day_MakeDate day time :
  0 <= time < msPerDay -> Day (MakeDate day time) = day.
Proof.
  unfold MakeDate, Day, msPerDay. intros H.
  symmetry. apply (Z.div_unique _ _ _ time); lia.
Qed.

Lemma TimeWithinDay_MakeDate day time :
  0 <= time < msPerDay -> TimeWithinDay (MakeDate day time) = time.
Proof.
  unfold MakeDate, TimeWithinDay, msPerDay. intros H.
  symmetry. apply (Z.mod_unique _ _ day); lia.
Qed.


(** The Monday on or before a day: its weekday is 1. *)
Lemma WeekDay_monday n : (n - ((n + 4) mod 7 + 6) mod 7 + 4) mod 7 = 1.
Proof. Z.to_euclidean_division_equations; lia. Qed.

Lemma DaysBeforeMonth_range mn leap :
  0 <= mn <= 11 -> 0 <= leap <= 1 ->
  0 <= DaysBeforeMonth mn leap < 335 + leap.
Proof.
  intros Hm Hl.
  assert (E : mn = 0 \/ mn = 1 \/ mn = 2 \/ mn = 3 \/ mn = 4 \/ mn = 5 \/
              mn = 6 \/ mn = 7 \/ mn = 8 \/ mn = 9 \/ mn = 10 \/ mn = 11)
    by lia.
  repeat (destruct E as [->|E]); try subst mn;
    cbv beta iota delta [DaysBeforeMonth]; lia.
Qed.

(** The fields of a time value are those of the year and of the day of
    the year in which its day falls. *)
Lemma fields_of_day t y n :
  Day t = DayFromYear y + n -> 0 <= n < DaysInYear y ->
  YearFromTime t = y /\ DayWithinYear t = n /\
  InLeapYear t = (if DaysInYear y =? 366 then 1 else 0).
Proof.
  intros Hd Hn.
  assert (EY : YearFromTime t = y).
  { apply YearFromTime_unique. rewrite DayFromYear_succ. lia. }
  unfold DayWithinYear, InLeapYear. rewrite EY. repeat split; lia.
Qed.

(** [MakeDay] finds the day that ECMAScript asks for: the first of month
    [month] of year [year], months beyond the year carried over. *)
Lemma MakeDay_first_of_month year month :
  let t := MakeDate (MakeDay year month 1) 0 in
  YearFromTime t = year + month / 12 /\
  MonthFromTime t = month mod 12 /\
  DateFromTime t = 1.
Proof.
  intros t.
  set (ym := year + month / 12). set (mn := month mod 12).
  set (leap := if DaysInYear ym =? 366 then 1 else 0).
  assert (Hmn : 0 <= mn <= 11) by (subst mn; pose proof (Z.mod_pos_bound month 12); lia).
  assert (Hleap : 0 <= leap <= 1) by (subst leap; destruct (_ =? _); lia).
  assert (Hd : Day t = DayFromYear ym + DaysBeforeMonth mn leap).
  { subst t. rewrite Day_MakeDate by (unfold msPerDay; lia).
    unfold MakeDay. cbv zeta. fold ym mn leap. lia. }
  pose proof (DaysBeforeMonth_range mn leap Hmn Hleap) as R.
  assert (HY : DaysInYear ym = 365 + leap).
  { subst leap. destruct (DaysInYear_cases ym) as [E|E]; rewrite E; reflexivity. }
  destruct (fields_of_day t ym (DaysBeforeMonth mn leap) Hd ltac:(lia))
    as (EY & EW & EL).
  fold leap in EL.
  split; [exact EY|].
  assert (EM : MonthFromTime t = mn).
  { unfold MonthFromTime. cbv zeta. rewrite EW, EL.
    assert (E : mn = 0 \/ mn = 1 \/ mn = 2 \/ mn = 3 \/ mn = 4 \/ mn = 5 \/
                mn = 6 \/ mn = 7 \/ mn = 8 \/ mn = 9 \/ mn = 10 \/ mn = 11)
      by lia.
    clear - E Hleap.
    repeat (destruct E as [E|E]); rewrite E;
      cbv beta iota delta [DaysBeforeMonth];
      repeat match goal with
             | |- context [if ?a <? ?b then _ else _] =>
                 destruct (Z.ltb_spec a b); try lia
             end. }
  split; [exact EM|].
  rewrite DateFromTime_eq, EM, EW, EL. lia.
Qed.

Lemma fields_days_later t t' k :
  Day t' = Day t + k ->
  0 <= DayWithinYear t + k < 365 + InLeapYear t ->
  YearFromTime t' = YearFromTime t /\
  DayWithinYear t' = DayWithinYear t + k /\
  InLeapYear t' = InLeapYear t.
Proof.
  intros Hd Hk.
  assert (HY : DaysInYear (YearFromTime t) = 365 + InLeapYear t)
    by (destruct (InLeapYear_cases t) as [[-> ->]|[-> ->]]; reflexivity).
  apply fields_of_day; [unfold DayWithinYear in *; lia | lia].
Qed.

(** Six days after a 28 July comes a 3 August, and six days after a
    7 July a 13 July, in every year. *)
Lemma six_days_after_28_july t t' :
  MonthFromTime t = 6 -> DateFromTime t = 28 -> Day t' = Day t + 6 ->
  MonthFromTime t' = 7 /\ DateFromTime t' = 3.
Proof.
  intros EM ED Hd.
  pose proof (DateFromTime_eq t) as E. rewrite EM, ED in E.
  cbv beta iota delta [DaysBeforeMonth] in E.
  pose proof (InLeapYear_cases t) as L.
  destruct (fields_days_later t t' 6 Hd ltac:(lia)) as (_ & EW & EL).
  assert (EM' : MonthFromTime t' = 7).
  { unfold MonthFromTime. cbv zeta. rewrite EW, EL.
    repeat match goal with
           | |- context [if ?a <? ?b then _ else _] =>
               destruct (Z.ltb_spec a b); try lia
           end. }
  split; [exact EM'|].
  rewrite DateFromTime_eq, EM', EW, EL.
  cbv beta iota delta [DaysBeforeMonth]. lia.
Qed.

Lemma six_days_after_7_july t t' :
  MonthFromTime t = 6 -> DateFromTime t = 7 -> Day t' = Day t + 6 ->
  MonthFromTime t' = 6 /\ DateFromTime t' = 13.
Proof.
  intros EM ED Hd.
  pose proof (DateFromTime_eq t) as E. rewrite EM, ED in E.
  cbv beta iota delta [DaysBeforeMonth] in E.
  pose proof (InLeapYear_cases t) as L.
  destruct (fields_days_later t t' 6 Hd ltac:(lia)) as (_ & EW & EL).
  assert (EM' : MonthFromTime t' = 6).
  { unfold MonthFromTime. cbv zeta. rewrite EW, EL.
    repeat match goal with
           | |- context [if ?a <? ?b then _ else _] =>
               destruct (Z.ltb_spec a b); try lia
           end. }
  split; [exact EM'|].
  rewrite DateFromTime_eq, EM', EW, EL.
  cbv beta iota delta [DaysBeforeMonth]. lia.
Qed.

End ESFacts.

(* ================================================================== *)
(** * Week boundaries in an arbitrary time zone *)
(* ================================================================== *)

Section WeekFacts.

Context {tz : TimeZone}.

Import ES ESFacts.

Lemma setDate_eq d dt :
  setDate d dt =
  UTC (MakeDate (Day (LocalTime d) - getDate d + dt)
                (TimeWithinDay (LocalTime d))).
Proof. unfold setDate, getDate. cbv zeta. now rewrite MakeDay_of_fields. Qed.

Lemma setHours_eq d h m s ms :
  setHours d h m s ms = UTC (MakeDate (Day (LocalTime d)) (MakeTime h m s ms)).
Proof. reflexivity. Qed.

(** The offset that [getWeekStart] applies to the day of the month leads
    to the Monday of the week. *)
Lemma monday_offset d :
  Day (LocalTime d) - getDate d +
  (getDate d - getDay d + (if getDay d =? 0 then -6 else 1))
  = mondayOf d.
Proof.
  unfold mondayOf, getDay, WeekDay.
  destruct (Z.eqb_spec ((Day (LocalTime d) + 4) mod 7) 0) as [E|E].
  - rewrite E. cbn. lia.
  - pose proof (Z.mod_pos_bound (Day (LocalTime d) + 4) 7 ltac:(lia)) as R.
    set (r := (Day (LocalTime d) + 4) mod 7) in *. clearbody r.
    Z.to_euclidean_division_equations; lia.
Qed.

Lemma getWeekStart_unfold d :
  getWeekStart d =
  UTC (MakeDate
         (Day (LocalTime
                 (UTC (MakeDate (mondayOf d) (TimeWithinDay (LocalTime d))))))
         0).
Proof.
  unfold getWeekStart. cbv zeta.
  rewrite setHours_eq, setDate_eq, monday_offset. reflexivity.
Qed.

Lemma getWeekStart_eq d :
  localTimeExists (MakeDate (mondayOf d) (TimeWithinDay (LocalTime d))) ->
  getWeekStart d = UTC (MakeDate (mondayOf d) 0).
Proof.
  intros H1. rewrite getWeekStart_unfold. unfold localTimeExists in H1.
  rewrite H1, Day_MakeDate by apply TimeWithinDay_range. reflexivity.
Qed.

Lemma LocalTime_getWeekStart d :
  localTimeExists (MakeDate (mondayOf d) (TimeWithinDay (LocalTime d))) ->
  localTimeExists (MakeDate (mondayOf d) 0) ->
  LocalTime (getWeekStart d) = MakeDate (mondayOf d) 0.
Proof. intros H1 H2. now rewrite getWeekStart_eq. Qed.

Lemma WeekDay_midnight_mondayOf d :
  WeekDay (MakeDate (mondayOf d) 0) = 1.
Proof.
  unfold WeekDay. rewrite Day_MakeDate by (unfold msPerDay; lia).
  unfold mondayOf, WeekDay. apply WeekDay_monday.
Qed.

Lemma mondayOf_getWeekStart d :
  localTimeExists (MakeDate (mondayOf d) (TimeWithinDay (LocalTime d))) ->
  localTimeExists (MakeDate (mondayOf d) 0) ->
  mondayOf (getWeekStart d) = mondayOf d.
Proof.
  intros H1 H2. unfold mondayOf at 1.
  rewrite (LocalTime_getWeekStart d H1 H2), WeekDay_midnight_mondayOf.
  rewrite Day_MakeDate by (unfold msPerDay; lia).
  change ((1 + 6) mod 7) with 0. lia.
Qed.

Lemma getWeekStart_idempotent d :
  localTimeExists (MakeDate (mondayOf d) (TimeWithinDay (LocalTime d))) ->
  localTimeExists (MakeDate (mondayOf d) 0) ->
  getWeekStart (getWeekStart d) = getWeekStart d.
Proof.
  intros H1 H2.
  assert (E : MakeDate (mondayOf (getWeekStart d))
                (TimeWithinDay (LocalTime (getWeekStart d)))
              = MakeDate (mondayOf d) 0).
  { rewrite (mondayOf_getWeekStart d H1 H2), (LocalTime_getWeekStart d H1 H2).
    now rewrite TimeWithinDay_MakeDate by (unfold msPerDay; lia). }
  rewrite (getWeekStart_eq (getWeekStart d)) by now rewrite E.
  rewrite (mondayOf_getWeekStart d H1 H2). symmetry. now apply getWeekStart_eq.
Qed.

Lemma getWeekEnd_unfold d :
  getWeekEnd d =
  UTC (MakeDate
         (Day (LocalTime
                 (UTC (MakeDate (Day (LocalTime (getWeekStart d)) + 6)
                                (TimeWithinDay (LocalTime (getWeekStart d)))))))
         (MakeTime 23 59 59 999)).
Proof.
  unfold getWeekEnd. cbv zeta. rewrite setHours_eq, setDate_eq.
  replace (Day (LocalTime (getWeekStart d)) - getDate (getWeekStart d)
           + (getDate (getWeekStart d) + 6))
    with (Day (LocalTime (getWeekStart d)) + 6) by lia.
  reflexivity.
Qed.

Lemma getWeekEnd_eq d :
  localTimeExists (MakeDate (mondayOf d) (TimeWithinDay (LocalTime d))) ->
  localTimeExists (MakeDate (mondayOf d) 0) ->
  localTimeExists (MakeDate (mondayOf d + 6) 0) ->
  getWeekEnd d = UTC (MakeDate (mondayOf d + 6) (MakeTime 23 59 59 999)).
Proof.
  intros H1 H2 H3. rewrite getWeekEnd_unfold.
  rewrite (LocalTime_getWeekStart d H1 H2).
  rewrite Day_MakeDate, TimeWithinDay_MakeDate by (unfold msPerDay; lia).
  unfold localTimeExists in H3. rewrite H3.
  now rewrite Day_MakeDate by (unfold msPerDay; lia).
Qed.

Lemma clock_fields_midnight d day :
  LocalTime d = MakeDate day 0 ->
  getHours d = 0 /\ getMinutes d = 0 /\ getSeconds d = 0 /\
  getMilliseconds d = 0.
Proof.
  intros E. unfold getHours, getMinutes, getSeconds, getMilliseconds.
  rewrite E.
  unfold HourFromTime, MinFromTime, SecFromTime, msFromTime, MakeDate,
    msPerDay, msPerHour, msPerMinute, msPerSecond.
  repeat split; Z.to_euclidean_division_equations; lia.
Qed.

Lemma mondayOf_eq d :
  mondayOf d =
  Day (LocalTime d) - (if getDay d =? 0 then 6 else getDay d - 1).
Proof.
  unfold mondayOf, getDay.
  pose proof (Z.mod_pos_bound (Day (LocalTime d) + 4) 7 ltac:(lia)) as R.
  unfold WeekDay in *.
  set (r := (Day (LocalTime d) + 4) mod 7) in *. clearbody r.
  destruct (Z.eqb_spec r 0) as [->|N]; [reflexivity|].
  Z.to_euclidean_division_equations; lia.
Qed.

(** The same facts when the zone only keeps the local times on their
    day. *)
Lemma localTimeExists_dayKept x : localTimeExists x -> dayKept x.
Proof. unfold localTimeExists, dayKept. now intros ->. Qed.

Lemma getWeekStart_instant d :
  dayKept (MakeDate (mondayOf d) (TimeWithinDay (LocalTime d))) ->
  getWeekStart d = UTC (MakeDate (mondayOf d) 0).
Proof.
  intros H1. rewrite getWeekStart_unfold. unfold dayKept in H1.
  rewrite H1, Day_MakeDate by apply TimeWithinDay_range. reflexivity.
Qed.

Lemma Day_getWeekStart d :
  dayKept (MakeDate (mondayOf d) (TimeWithinDay (LocalTime d))) ->
  dayKept (MakeDate (mondayOf d) 0) ->
  Day (LocalTime (getWeekStart d)) = mondayOf d.
Proof.
  intros H1 H2. rewrite (getWeekStart_instant d H1). unfold dayKept in H2.
  rewrite H2. apply Day_MakeDate. unfold msPerDay. lia.
Qed.

Lemma WeekDay_getWeekStart d :
  dayKept (MakeDate (mondayOf d) (TimeWithinDay (LocalTime d))) ->
  dayKept (MakeDate (mondayOf d) 0) ->
  WeekDay (LocalTime (getWeekStart d)) = 1.
Proof.
  intros H1 H2. unfold WeekDay.
  rewrite (Day_getWeekStart d H1 H2). unfold mondayOf, WeekDay.
  apply WeekDay_monday.
Qed.

Lemma getDay_getWeekStart d :
  dayKept (MakeDate (mondayOf d) (TimeWithinDay (LocalTime d))) ->
  dayKept (MakeDate (mondayOf d) 0) ->
  getDay (getWeekStart d) = 1.
Proof. intros H1 H2. unfold getDay. now apply WeekDay_getWeekStart. Qed.

Lemma mondayOf_getWeekStart_kept d :
  dayKept (MakeDate (mondayOf d) (TimeWithinDay (LocalTime d))) ->
  dayKept (MakeDate (mondayOf d) 0) ->
  mondayOf (getWeekStart d) = mondayOf d.
Proof.
  intros H1 H2. unfold mondayOf at 1.
  rewrite (WeekDay_getWeekStart d H1 H2), (Day_getWeekStart d H1 H2).
  change ((1 + 6) mod 7) with 0. lia.
Qed.

Lemma getWeekStart_again d :
  dayKept (MakeDate (mondayOf d) (TimeWithinDay (LocalTime d))) ->
  dayKept (MakeDate (mondayOf d) 0) ->
  dayKept (LocalTime (getWeekStart d)) ->
  getWeekStart (getWeekStart d) = getWeekStart d.
Proof.
  intros H1 H2 H3.
  assert (E : MakeDate (mondayOf (getWeekStart d))
                (TimeWithinDay (LocalTime (getWeekStart d)))
              = LocalTime (getWeekStart d)).
  { rewrite (mondayOf_getWeekStart_kept d H1 H2),
      <- (Day_getWeekStart d H1 H2).
    apply MakeDate_Day. }
  rewrite (getWeekStart_instant (getWeekStart d)) by now rewrite E.
  rewrite (mondayOf_getWeekStart_kept d H1 H2).
  symmetry. now apply getWeekStart_instant.
Qed.


(** Being in the same week is an equivalence of dates. *)
Lemma isSameWeek_refl d : isSameWeek d d = true.
Proof. unfold isSameWeek. apply Z.eqb_refl. Qed.

Lemma isSameWeek_sym d1 d2 : isSameWeek d1 d2 = isSameWeek d2 d1.
Proof. unfold isSameWeek. apply Z.eqb_sym. Qed.

Lemma isSameWeek_trans d1 d2 d3 :
  isSameWeek d1 d2 = true -> isSameWeek d2 d3 = true ->
  isSameWeek d1 d3 = true.
Proof. unfold isSameWeek, getTime. rewrite !Z.eqb_eq. congruence. Qed.

(** In a zone that keeps one offset, every local time exists. *)
Lemma constant_offset_localTimeExists offset x :
  (forall t isUTC, LocalTZA t isUTC = offset) -> localTimeExists x.
Proof.
  intros H. unfold localTimeExists, LocalTime, UTC. rewrite !H. lia.
Qed.

End WeekFacts.

(* ================================================================== *)
(** * Date strings determine the calendar date *)
(* ================================================================== *)

Section DecimalStrings.

Local Open Scope string_scope.

Lemma append_inj_length s1 s2 r1 r2 :
  String.length s1 = String.length s2 ->
  s1 ++ r1 = s2 ++ r2 -> s1 = s2 /\ r1 = r2.
Proof.
  revert s2. induction s1 as [|a s1 IH]; intros [|b s2] L E;
    try discriminate; cbn in *.
  - auto.
  - injection E as -> E. injection L as L.
    destruct (IH s2 L E) as [-> ->]. auto.
Qed.

Lemma N_to_uint_nonnil n : N.to_uint n <> Decimal.Nil.
Proof.
  destruct n as [|p]; cbn; [discriminate|].
  apply DecimalPos.Unsigned.to_uint_nonnil.
Qed.

Lemma decimalValue_digits n :
  decimalValue (NilZero.string_of_uint (N.to_uint n)) = Some n.
Proof.
  unfold decimalValue, NilZero.string_of_uint.
  pose proof (N_to_uint_nonnil n) as H.
  destruct (N.to_uint n) eqn:E; try contradiction;
    rewrite <- E, NilEmpty.usu; cbn [option_map];
    now rewrite DecimalN.Unsigned.of_to.
Qed.

Lemma decimalValue_zeros k s : decimalValue (zeros k ++ s) = decimalValue s.
Proof.
  induction k as [|k IH]; [reflexivity|].
  unfold decimalValue in *. cbn [zeros append NilEmpty.uint_of_string].
  rewrite <- IH.
  destruct (NilEmpty.uint_of_string (zeros k ++ s)) as [u|]; reflexivity.
Qed.

Lemma decimalValue_padded n k :
  decimalValue (ToZeroPaddedDecimalString n k) = Some (Z.to_N n).
Proof.
  unfold ToZeroPaddedDecimalString. cbv zeta.
  now rewrite decimalValue_zeros, decimalValue_digits.
Qed.

Lemma decimalValue_minus s : decimalValue (String "-" s) = None.
Proof.
  unfold decimalValue. cbn [NilEmpty.uint_of_string].
  now destruct (NilEmpty.uint_of_string s).
Qed.

Lemma padded_inj n m k :
  0 <= n -> 0 <= m ->
  ToZeroPaddedDecimalString n k = ToZeroPaddedDecimalString m k -> n = m.
Proof.
  intros Hn Hm E. apply (f_equal decimalValue) in E.
  rewrite !decimalValue_padded in E. injection E as E. lia.
Qed.


Lemma WeekDayName_length wd : String.length (WeekDayName wd) = 3%nat.
Proof.
  unfold WeekDayName.
  repeat match goal with
         | |- context [match ?x with _ => _ end] => destruct x
         end; reflexivity.
Qed.

Lemma MonthName_length m : String.length (MonthName m) = 3%nat.
Proof.
  unfold MonthName.
  repeat match goal with
         | |- context [match ?x with _ => _ end] => destruct x
         end; reflexivity.
Qed.

Lemma MonthName_inj m1 m2 :
  0 <= m1 <= 11 -> 0 <= m2 <= 11 -> MonthName m1 = MonthName m2 -> m1 = m2.
Proof.
  intros H1 H2.
  assert (E1 : m1 = 0 \/ m1 = 1 \/ m1 = 2 \/ m1 = 3 \/ m1 = 4 \/ m1 = 5 \/
               m1 = 6 \/ m1 = 7 \/ m1 = 8 \/ m1 = 9 \/ m1 = 10 \/ m1 = 11)
    by lia.
  assert (E2 : m2 = 0 \/ m2 = 1 \/ m2 = 2 \/ m2 = 3 \/ m2 = 4 \/ m2 = 5 \/
               m2 = 6 \/ m2 = 7 \/ m2 = 8 \/ m2 = 9 \/ m2 = 10 \/ m2 = 11)
    by lia.
  clear H1 H2.
  repeat (destruct E1 as [->|E1]); try subst m1;
    repeat (destruct E2 as [->|E2]); try subst m2;
    intros E; first [reflexivity | discriminate E].
Qed.

Lemma date_string_length n :
  1 <= n <= 31 -> String.length (ToZeroPaddedDecimalString n 2) = 2%nat.
Proof.
  intros H.
  assert (E : exists k, (k < 31)%nat /\ n = 1 + Z.of_nat k).
  { exists (Z.to_nat (n - 1)). lia. }
  destruct E as (k & Hk & ->). clear H.
  do 31 (destruct k as [|k]; [reflexivity|]). lia.
Qed.

Lemma padded_first_digit n k :
  decimalValue (ToZeroPaddedDecimalString n k) <> None.
Proof. rewrite decimalValue_padded. discriminate. Qed.

Lemma yearString_inj y1 y2 : yearString y1 = yearString y2 -> y1 = y2.
Proof.
  unfold yearString. cbv zeta.
  destruct (Z.leb_spec 0 y1) as [P1|N1], (Z.leb_spec 0 y2) as [P2|N2];
    cbn [append]; intros E.
  - apply padded_inj in E; lia.
  - apply (f_equal decimalValue) in E.
    rewrite decimalValue_minus, decimalValue_padded in E. discriminate.
  - apply (f_equal decimalValue) in E.
    rewrite decimalValue_minus, decimalValue_padded in E. discriminate.
  - injection E as E. apply padded_inj in E; lia.
Qed.

End DecimalStrings.

Section DateStrings.

Import ES ESFacts.
Local Open Scope string_scope.

Lemma DateString_of_Day a b : Day a = Day b -> DateString a = DateString b.
Proof.
  intros E.
  unfold DateString, WeekDay, DateFromTime, MonthFromTime, DayWithinYear,
    InLeapYear, YearFromTime.
  now rewrite E.
Qed.

Lemma DateString_fields a b :
  DateString a = DateString b ->
  YearFromTime a = YearFromTime b /\
  MonthFromTime a = MonthFromTime b /\
  DateFromTime a = DateFromTime b.
Proof.
  unfold DateString. intros E.
  apply append_inj_length in E; [|now rewrite !WeekDayName_length].
  destruct E as [_ E]. injection E as E.
  apply append_inj_length in E; [|now rewrite !MonthName_length].
  destruct E as [EM E]. injection E as E.
  pose proof (DateFromTime_range a) as Ra.
  pose proof (DateFromTime_range b) as Rb.
  apply append_inj_length in E; [|now rewrite !date_string_length].
  destruct E as [ED E]. injection E as E.
  split; [now apply yearString_inj|].
  split.
  - apply MonthName_inj; auto using MonthFromTime_range.
  - apply padded_inj in ED; lia.
Qed.

Lemma DateString_inj a b : DateString a = DateString b -> Day a = Day b.
Proof.
  intros E. destruct (DateString_fields a b E) as (EY & EM & ED).
  pose proof (MakeDay_of_fields a (DateFromTime a)) as Ha.
  pose proof (MakeDay_of_fields b (DateFromTime b)) as Hb.
  rewrite EY, EM, ED in Ha. lia.
Qed.

End DateStrings.

Section SameDay.

Context {tz : TimeZone}.

Lemma isSameDay_iff_Day a b :
  isSameDay a b = true <-> ES.Day (LocalTime a) = ES.Day (LocalTime b).
Proof.
  unfold isSameDay, toDateString. rewrite String.eqb_eq. split.
  - apply DateString_inj.
  - apply DateString_of_Day.
Qed.

(** Two dates have equal date strings exactly when they have the same
    local year, month and day of the month. *)
Lemma isSameDay_sameLocalDate a b : isSameDay a b = sameLocalDate a b.
Proof.
  apply eq_true_iff_eq. rewrite isSameDay_iff_Day.
  unfold sameLocalDate, getFullYear, getMonth, getDate.
  rewrite !andb_true_iff, !Z.eqb_eq. split.
  - intros E.
    unfold ES.DateFromTime, ES.MonthFromTime, ES.DayWithinYear,
      ES.InLeapYear, ES.YearFromTime.
    now rewrite E.
  - intros [[EY EM] ED].
    pose proof (ESFacts.MakeDay_of_fields (LocalTime a)
                  (ES.DateFromTime (LocalTime a))) as Ha.
    pose proof (ESFacts.MakeDay_of_fields (LocalTime b)
                  (ES.DateFromTime (LocalTime b))) as Hb.
    rewrite EY, EM, ED in Ha. lia.
Qed.

End SameDay.

(* ================================================================== *)
(** * Zones that keep one offset *)
(* ================================================================== *)

Section FixedOffset.

Context {tz : TimeZone} (offset : Z).

Hypothesis one_offset : forall t isUTC, LocalTZA t isUTC = offset.

Import ES ESFacts.

Lemma fixedOffset_localTimeExists x : localTimeExists x.
Proof. now apply (constant_offset_localTimeExists offset). Qed.

Lemma fixedOffset_UTC_LocalTime d : UTC (LocalTime d) = d.
Proof. unfold UTC, LocalTime. rewrite !one_offset. lia. Qed.

(** In such a zone [getWeekStart] always gives a Monday at local
    midnight and gives it back unchanged. *)
Lemma getWeekStart_fixedOffset d :
  getDay (getWeekStart d) = 1 /\
  TimeWithinDay (LocalTime (getWeekStart d)) = 0 /\
  getWeekStart (getWeekStart d) = getWeekStart d.
Proof.
  pose proof (LocalTime_getWeekStart d (fixedOffset_localTimeExists _)
                (fixedOffset_localTimeExists _)) as E.
  split; [|split].
  - unfold getDay. rewrite E. apply WeekDay_midnight_mondayOf.
  - rewrite E. apply TimeWithinDay_MakeDate. unfold msPerDay. lia.
  - apply getWeekStart_idempotent; apply fixedOffset_localTimeExists.
Qed.

(** In such a zone the week ends 6 days 23:59:59.999 after its start. *)
Lemma getWeekEnd_fixedOffset d : getWeekEnd d - getWeekStart d = 604799999.
Proof.
  rewrite getWeekEnd_eq, getWeekStart_eq
    by apply fixedOffset_localTimeExists.
  unfold UTC. rewrite !one_offset.
  unfold MakeDate, MakeTime, msPerDay, msPerHour, msPerMinute, msPerSecond.
  lia.
Qed.

(** A Monday at local midnight starts its own week. *)
Lemma getWeekStart_of_week_start ws :
  getDay ws = 1 -> TimeWithinDay (LocalTime ws) = 0 -> getWeekStart ws = ws.
Proof.
  intros Hday Hmid.
  rewrite getWeekStart_eq by apply fixedOffset_localTimeExists.
  rewrite mondayOf_eq, Hday. change (1 =? 0) with false.
  cbv beta iota. rewrite Z.sub_0_r, <- Hmid, MakeDate_Day.
  apply fixedOffset_UTC_LocalTime.
Qed.

Lemma Day_getWeekEnd_of_week_start ws :
  getDay ws = 1 -> TimeWithinDay (LocalTime ws) = 0 ->
  Day (LocalTime (getWeekEnd ws)) = Day (LocalTime ws) + 6.
Proof.
  intros Hday Hmid.
  rewrite getWeekEnd_eq by apply fixedOffset_localTimeExists.
  rewrite (fixedOffset_localTimeExists _ : LocalTime (UTC _) = _).
  rewrite Day_MakeDate by (unfold MakeTime, msPerDay, msPerHour, msPerMinute, msPerSecond; lia).
  rewrite mondayOf_eq, Hday. change (1 =? 0) with false. cbv beta iota. lia.
Qed.

(** The labels of the weeks that start on a Monday 28 July and on a
    Monday 7 July, in any year. *)
Lemma getWeekLabel_28_july ws :
  getDay ws = 1 -> TimeWithinDay (LocalTime ws) = 0 ->
  getMonth ws = 6 -> getDate ws = 28 ->
  getWeekLabel ws = "Jul 28 - Aug 3"%string.
Proof.
  intros Hday Hmid Hm Hd.
  destruct (six_days_after_28_july (LocalTime ws) (LocalTime (getWeekEnd ws))
              Hm Hd (Day_getWeekEnd_of_week_start ws Hday Hmid)) as [Em Ed].
  unfold getWeekLabel, toLocaleDateString_en_US_month_short. cbv zeta.
  unfold getMonth, getDate in Hm, Hd |- *.
  rewrite Hm, Hd, Em, Ed. reflexivity.
Qed.

Lemma getWeekLabel_7_july ws :
  getDay ws = 1 -> TimeWithinDay (LocalTime ws) = 0 ->
  getMonth ws = 6 -> getDate ws = 7 ->
  getWeekLabel ws = "Jul 7-13"%string.
Proof.
  intros Hday Hmid Hm Hd.
  destruct (six_days_after_7_july (LocalTime ws) (LocalTime (getWeekEnd ws))
              Hm Hd (Day_getWeekEnd_of_week_start ws Hday Hmid)) as [Em Ed].
  unfold getWeekLabel, toLocaleDateString_en_US_month_short. cbv zeta.
  unfold getMonth, getDate in Hm, Hd |- *.
  rewrite Hm, Hd, Em, Ed. reflexivity.
Qed.

End FixedOffset.

(* ================================================================== *)
(** * Properties of [getWeekStart], [getWeekEnd] and [getWeekLabel] *)
(* ================================================================== *)

Section WeekClaims.

Context {tz : TimeZone}.

Import ES ESFacts.

(** C6, as amended.  When the host's zone keeps on their day the two
    local times that the computation sets (the Monday of the week of [d]
    at the time of day of [d], and that Monday at 00:00), [getWeekStart d]
    is the instant that the zone gives to the local midnight of that
    Monday: it falls on a Monday, six days before the day of a Sunday [d]
    and on the Monday on or before any other day; it is at local midnight
    when the zone has that midnight; and [getWeekStart] returns it
    unchanged when the zone keeps its local time on its day, as it does
    when it has the midnight. *)
Theorem getWeekStart_monday_midnight d :
  dayKept (MakeDate (mondayOf d) (TimeWithinDay (LocalTime d))) ->
  dayKept (MakeDate (mondayOf d) 0) ->
  getDay (getWeekStart d) = 1 /\
  Day (LocalTime (getWeekStart d)) =
    Day (LocalTime d) - (if getDay d =? 0 then 6 else getDay d - 1) /\
  getWeekStart d = UTC (MakeDate (mondayOf d) 0) /\
  (dayKept (LocalTime (getWeekStart d)) ->
   getWeekStart (getWeekStart d) = getWeekStart d) /\
  (localTimeExists (MakeDate (mondayOf d) 0) ->
   (getHours (getWeekStart d) = 0 /\ getMinutes (getWeekStart d) = 0 /\
    getSeconds (getWeekStart d) = 0 /\
    getMilliseconds (getWeekStart d) = 0) /\
   getWeekStart (getWeekStart d) = getWeekStart d).
Proof.
  intros H1 H2.
  split; [|split; [|split; [|split]]].
  - now apply getDay_getWeekStart.
  - rewrite (Day_getWeekStart d H1 H2). apply mondayOf_eq.
  - now apply getWeekStart_instant.
  - intros H3. now apply getWeekStart_again.
  - intros Hmid.
    assert (E : LocalTime (getWeekStart d) = MakeDate (mondayOf d) 0)
      by (rewrite (getWeekStart_instant d H1); exact Hmid).
    split.
    + apply (clock_fields_midnight _ _ E).
    + apply getWeekStart_again; [exact H1 | exact H2 |].
      rewrite E. exact H2.
Qed.


End WeekClaims.

Section AddWeekStartClaim.

Context {tz : TimeZone} {num : Type} {numOps : Number num}.

Import ES ESFacts.

(** C9, as amended.  In both branches of [addTransaction] the current
    bucket of the returned ledger starts at [getWeekStart(today)],
    whatever [weekStart] the current bucket of the given ledger had.
    That instant falls on a Monday when the host's zone keeps on their
    day the two local times that [getWeekStart] sets, and at local
    midnight when moreover the zone has that Monday's midnight. *)
Theorem addTransaction_weekStart
    (name : string) (amount : num) (data : BudgetData num) (w : World num) :
  let today := reading w 2 in
  let start :=
    weekStart (currentWeek (fst (addTransaction name amount data w))) in
  start = getWeekStart today /\
  (dayKept (MakeDate (mondayOf today) (TimeWithinDay (LocalTime today))) ->
   dayKept (MakeDate (mondayOf today) 0) ->
   getDay start = 1 /\
   (localTimeExists (MakeDate (mondayOf today) 0) ->
    getHours start = 0 /\ getMinutes start = 0 /\
    getSeconds start = 0 /\ getMilliseconds start = 0)).
Proof.
  intros today start. subst today start.
  rewrite addTransaction_currentWeek_start.
  split; [reflexivity|]. intros H1 H2. split.
  - now apply getDay_getWeekStart.
  - intros Hmid. apply (clock_fields_midnight _ (mondayOf (reading w 2))).
    rewrite (getWeekStart_instant _ H1). exact Hmid.
Qed.

End AddWeekStartClaim.

(** C6, as stated, fails in a zone that skips a Monday's midnight: in
    Tehran the clocks went from 24:00 of Sunday 21 March 2021 to 01:00 of
    the Monday, and the week of Wednesday 24 March starts at 01:00. *)
Lemma getWeekStart_tehran_not_midnight :
  getDay (tz := tehran2021)
    (getWeekStart (tz := tehran2021) wed_2021_03_24) = 1 /\
  getHours (tz := tehran2021)
    (getWeekStart (tz := tehran2021) wed_2021_03_24) = 1 /\
  ~ (getHours (tz := tehran2021)
       (getWeekStart (tz := tehran2021) wed_2021_03_24) = 0).
Proof. repeat split; vm_compute; congruence. Qed.


(** C9, as stated, fails in the same week in Tehran: a purchase on
    Wednesday 24 March 2021 gives a current bucket that starts on the
    Monday at 01:00 local time, not at midnight. *)
Lemma addTransaction_tehran_weekStart_not_midnight :
  weekStart
    (currentWeek
       (fst (addTransaction (tz := tehran2021) "Coffee" 450 staleLedger
               (worldAt [wed_2021_03_24]))))
  = 1616358600000 /\
  getDay (tz := tehran2021) 1616358600000 = 1 /\
  getHours (tz := tehran2021) 1616358600000 = 1 /\
  ~ (getHours (tz := tehran2021)
       (weekStart
          (currentWeek
             (fst (addTransaction (tz := tehran2021) "Coffee" 450
                     staleLedger (worldAt [wed_2021_03_24])))))
     = 0).
Proof. repeat split; vm_compute; congruence. Qed.

(** The week of the counterexample in Tehran: both local times stay on
    the Monday, so the week start is a Monday and is returned unchanged,
    though it is not at midnight. *)
Lemma getWeekStart_monday_midnight_witness :
  dayKept (tz := tehran2021)
    (ES.MakeDate (mondayOf (tz := tehran2021) wed_2021_03_24)
       (ES.TimeWithinDay (LocalTime (tz := tehran2021) wed_2021_03_24))) /\
  dayKept (tz := tehran2021)
    (ES.MakeDate (mondayOf (tz := tehran2021) wed_2021_03_24) 0) /\
  getDay (tz := tehran2021)
    (getWeekStart (tz := tehran2021) wed_2021_03_24) = 1 /\
  getWeekStart (tz := tehran2021)
    (getWeekStart (tz := tehran2021) wed_2021_03_24)
  = getWeekStart (tz := tehran2021) wed_2021_03_24.
Proof.
  assert (H1 : dayKept (tz := tehran2021)
                 (ES.MakeDate (mondayOf (tz := tehran2021) wed_2021_03_24)
                    (ES.TimeWithinDay
                       (LocalTime (tz := tehran2021) wed_2021_03_24))))
    by (vm_compute; reflexivity).
  assert (H2 : dayKept (tz := tehran2021)
                 (ES.MakeDate (mondayOf (tz := tehran2021) wed_2021_03_24) 0))
    by (vm_compute; reflexivity).
  destruct (getWeekStart_monday_midnight (tz := tehran2021)
              wed_2021_03_24 H1 H2) as (Hday & _ & _ & Hagain & _).
  split; [exact H1|]. split; [exact H2|]. split; [exact Hday|].
  apply Hagain. vm_compute. reflexivity.
Defined.


(** In the Tehran week the bucket of the purchase starts on a Monday. *)
Lemma addTransaction_weekStart_witness :
  getDay (tz := tehran2021)
    (weekStart
       (currentWeek
          (fst (addTransaction (tz := tehran2021) "Coffee" 450 staleLedger
                  (worldAt [wed_2021_03_24])))))
  = 1.
Proof.
  refine (proj1 (proj2 (addTransaction_weekStart (tz := tehran2021)
                          "Coffee" 450 staleLedger
                          (worldAt [wed_2021_03_24])) _ _));
    vm_compute; reflexivity.
Defined.

(** C8.  The label of a week is the short month and the day of its
    start, then ["-"] and the day of its end when both are in one month,
    and [" - "], the short month and the day of its end otherwise; days
    are written without padding.  The week that starts on Monday
    28 July 2025 is labelled ["Jul 28 - Aug 3"] and the week of 7 to
    13 July 2025 ["Jul 7-13"]; so are, in a zone that keeps one offset,
    the weeks that start on a Monday 28 July or 7 July of any year. *)
Theorem getWeekLabel_format :
  (forall (tz : TimeZone) (weekStart : Date),
     getWeekLabel weekStart =
     if getMonth weekStart =? getMonth (getWeekEnd weekStart)
     then (MonthName (getMonth weekStart) ++ " "
           ++ toString (getDate weekStart) ++ "-"
           ++ toString (getDate (getWeekEnd weekStart)))%string
     else (MonthName (getMonth weekStart) ++ " "
           ++ toString (getDate weekStart) ++ " - "
           ++ MonthName (getMonth (getWeekEnd weekStart)) ++ " "
           ++ toString (getDate (getWeekEnd weekStart)))%string) /\
  getWeekLabel (tz := utcZone) mon_2025_07_28 = "Jul 28 - Aug 3"%string /\
  getWeekLabel (tz := utcZone) mon_2025_07_07 = "Jul 7-13"%string /\
  getWeekLabel (tz := newYork2025) (mon_2025_07_28 + 4 * ES.msPerHour)
    = "Jul 28 - Aug 3"%string /\
  getWeekLabel (tz := newYork2025) (mon_2025_07_07 + 4 * ES.msPerHour)
    = "Jul 7-13"%string /\
  (forall (offset : Z) (weekStart : Date),
     getDay (tz := fixedOffset offset) weekStart = 1 ->
     ES.TimeWithinDay (LocalTime (tz := fixedOffset offset) weekStart) = 0 ->
     getMonth (tz := fixedOffset offset) weekStart = 6 ->
     (getDate (tz := fixedOffset offset) weekStart = 28 ->
      getWeekLabel (tz := fixedOffset offset) weekStart
        = "Jul 28 - Aug 3"%string) /\
     (getDate (tz := fixedOffset offset) weekStart = 7 ->
      getWeekLabel (tz := fixedOffset offset) weekStart
        = "Jul 7-13"%string)).
Proof.
  split; [intros tz weekStart; reflexivity|].
  do 4 (split; [vm_compute; reflexivity|]).
  intros offset weekStart Hday Hmid Hmonth. split; intros Hdate.
  - now apply (getWeekLabel_28_july offset).
  - now apply (getWeekLabel_7_july offset).
Qed.

(* ================================================================== *)
(** * Properties of [createWeekData] *)
(* ================================================================== *)

Section TotalsClaims.

Context {tz : TimeZone} {num : Type} {numOps : Number num}.

(** C5.  In the bucket that [createWeekData] builds, [dailyTotal] is the
    sum, added up from 0 in the order of the list, of the amounts of the
    transactions whose timestamp has the local calendar date of the
    instant at which the clock is read, whatever the given [weekStart];
    [weeklyTotal] is the sum, added up likewise, of the amounts of those
    whose timestamp [ts] has [weekStart <= ts <= getWeekEnd weekStart]. *)
Theorem createWeekData_totals
    (weekStart : Date) (transactions : list (Transaction num))
    (w : World num) :
  let week := fst (createWeekData weekStart transactions w) in
  dailyTotal week =
    fold_left (fun total t => num_add total (amount t))
      (filter (fun t => sameLocalDate (timestamp t) (now w)) transactions)
      num_zero /\
  weeklyTotal week =
    fold_left (fun total t => num_add total (amount t))
      (filter (fun t => (weekStart <=? timestamp t) &&
                        (timestamp t <=? getWeekEnd weekStart))
              transactions)
      num_zero /\
  (forall t,
     In t (filter (fun t => (weekStart <=? timestamp t) &&
                            (timestamp t <=? getWeekEnd weekStart))
                  transactions) <->
     In t transactions /\
     weekStart <= timestamp t <= getWeekEnd weekStart) /\
  (forall weekStart',
     dailyTotal (fst (createWeekData weekStart' transactions w))
     = dailyTotal week).
Proof.
  intros week. subst week. rewrite createWeekData_fst.
  cbn [dailyTotal weeklyTotal].
  split; [|split; [|split]].
  - unfold calculateDailyTotal, sumAmounts. f_equal. apply filter_ext.
    intros t. apply isSameDay_sameLocalDate.
  - reflexivity.
  - intros t. rewrite filter_In, andb_true_iff, !Z.leb_le. tauto.
  - intros weekStart'. now rewrite createWeekData_fst.
Qed.

End TotalsClaims.

(** The day's total follows the clock, not the bucket: Wednesday's
    purchase counts on Wednesday and no longer on Thursday. *)
Example dailyTotal_follows_the_clock :
  dailyTotal (fst (createWeekData (tz := utcZone) mon_2025_03_03 [coffee]
                     (worldAt [wed_2025_03_05]))) = 450 /\
  dailyTotal (fst (createWeekData (tz := utcZone) mon_2025_03_03 [coffee]
                     (worldAt [thu_2025_03_06]))) = 0.
Proof. split; vm_compute; reflexivity. Qed.

(** Both ends of the week count in the week's total, the next
    millisecond does not. *)
Example weeklyTotal_bounds_inclusive :
  let tx (ts : Date) : Transaction Z :=
    {| id := "x"; name := "x"; amount := 1; timestamp := ts |} in
  calculateWeeklyTotal (tz := utcZone)
    [ tx mon_2025_03_03;
      tx (getWeekEnd (tz := utcZone) mon_2025_03_03);
      tx (mon_2025_03_03 - 1);
      tx (getWeekEnd (tz := utcZone) mon_2025_03_03 + 1) ]
    mon_2025_03_03 = 2.
Proof. vm_compute. reflexivity. Qed.

(* ================================================================== *)
(** * Weeks as ranges of instants, in a zone that keeps one offset *)
(* ================================================================== *)

Section WeekRanges.

Context {tz : TimeZone} (offset : Z).

Hypothesis one_offset : forall t isUTC, LocalTZA t isUTC = offset.

Import ES ESFacts.

Lemma getWeekStart_value d :
  getWeekStart d = mondayOf d * msPerDay - offset.
Proof.
  rewrite getWeekStart_eq
    by apply (fixedOffset_localTimeExists offset one_offset).
  unfold UTC. rewrite one_offset. unfold MakeDate. lia.
Qed.

Lemma getWeekEnd_value d :
  getWeekEnd d = (mondayOf d + 7) * msPerDay - 1 - offset.
Proof.
  rewrite getWeekEnd_eq
    by apply (fixedOffset_localTimeExists offset one_offset).
  unfold UTC. rewrite one_offset.
  unfold MakeDate, MakeTime, msPerDay, msPerHour, msPerMinute, msPerSecond.
  lia.
Qed.

Lemma mondayOf_bounds d :
  (mondayOf d + 4) mod 7 = 1 /\
  mondayOf d <= Day (LocalTime d) <= mondayOf d + 6.
Proof.
  unfold mondayOf, WeekDay. split.
  - apply WeekDay_monday.
  - Z.to_euclidean_division_equations; lia.
Qed.

Lemma mondayOf_unique d m :
  (m + 4) mod 7 = 1 -> m <= Day (LocalTime d) <= m + 6 -> mondayOf d = m.
Proof.
  intros Hm Hd. destruct (mondayOf_bounds d) as [Hm' Hd'].
  remember (mondayOf d) as m'. clear Heqm'.
  Z.to_euclidean_division_equations; lia.
Qed.

Lemma LocalTime_value d : LocalTime d = d + offset.
Proof. unfold LocalTime. now rewrite one_offset. Qed.

Lemma in_week_iff_mondayOf a b :
  getWeekStart a <= b <= getWeekEnd a <-> mondayOf b = mondayOf a.
Proof.
  rewrite getWeekStart_value, getWeekEnd_value.
  destruct (mondayOf_bounds a) as [Ha _].
  destruct (mondayOf_bounds b) as [Hb Rb].
  rewrite LocalTime_value in Rb. unfold Day, msPerDay in *.
  split.
  - intros R. apply mondayOf_unique; [exact Ha|].
    rewrite LocalTime_value. unfold Day, msPerDay.
    Z.to_euclidean_division_equations; lia.
  - intros <-. Z.to_euclidean_division_equations; lia.
Qed.

Lemma isSameWeek_iff_mondayOf a b :
  isSameWeek a b = true <-> mondayOf a = mondayOf b.
Proof.
  unfold isSameWeek, getTime. rewrite Z.eqb_eq, !getWeekStart_value.
  unfold msPerDay. split; intros H; lia.
Qed.

Lemma getWeekStart_idem d : getWeekStart (getWeekStart d) = getWeekStart d.
Proof.
  apply getWeekStart_idempotent;
    apply (fixedOffset_localTimeExists offset one_offset).
Qed.



End WeekRanges.

(* ================================================================== *)
(** * Further properties of the week calendar helpers *)
(* ================================================================== *)

Section CalendarProperties.

Context {tz : TimeZone}.

(** X1.  Two dates are on the same day, as [isSameDay] compares their
    date strings, exactly when they have the same local year, month and
    day of the month; the time of day plays no part. *)
Theorem isSameDay_iff_calendar_date a b :
  isSameDay a b = true <->
  getFullYear a = getFullYear b /\ getMonth a = getMonth b /\
  getDate a = getDate b.
Proof.
  rewrite isSameDay_sameLocalDate. unfold sameLocalDate.
  rewrite !andb_true_iff, !Z.eqb_eq. tauto.
Qed.

End CalendarProperties.

Section WeekRangeProperties.

Context {tz : TimeZone} (offset : Z).

Hypothesis one_offset : forall t isUTC, LocalTZA t isUTC = offset.

Import ES ESFacts.

(** X2.  In a zone that keeps one offset, every date lies within its own
    week: at or after [getWeekStart] and at or before [getWeekEnd]. *)
Theorem date_within_its_week d : getWeekStart d <= d <= getWeekEnd d.
Proof. apply (in_week_iff_mondayOf offset one_offset d d). reflexivity. Qed.

(** X3.  In a zone that keeps one offset, [isSameWeek a b] holds exactly
    when [b] lies between the start and the end of the week of [a], both
    included: the range that [calculateWeeklyTotal] counts is the week of
    [isSameWeek]. *)
Theorem isSameWeek_iff_within_week a b :
  isSameWeek a b = true <-> getWeekStart a <= b <= getWeekEnd a.
Proof.
  rewrite (isSameWeek_iff_mondayOf offset one_offset),
    (in_week_iff_mondayOf offset one_offset).
  split; congruence.
Qed.

(** X4.  In a zone that keeps one offset, weeks leave no gap: the
    millisecond after the end of a week starts the next week, and the
    millisecond before the start of a week ends the week before. *)
Theorem weeks_leave_no_gap d :
  getWeekStart (getWeekEnd d + 1) = getWeekEnd d + 1 /\
  getWeekEnd (getWeekStart d - 1) = getWeekStart d - 1 /\
  isSameWeek d (getWeekEnd d + 1) = false /\
  isSameWeek d (getWeekStart d - 1) = false.
Proof.
  destruct (mondayOf_bounds d) as [Hm _].
  assert (Enext : mondayOf (getWeekEnd d + 1) = mondayOf d + 7).
  { apply mondayOf_unique.
    - Z.to_euclidean_division_equations; lia.
    - rewrite (LocalTime_value offset one_offset),
        (getWeekEnd_value offset one_offset).
      unfold Day, msPerDay. Z.to_euclidean_division_equations; lia. }
  assert (Eprev : mondayOf (getWeekStart d - 1) = mondayOf d - 7).
  { apply mondayOf_unique.
    - Z.to_euclidean_division_equations; lia.
    - rewrite (LocalTime_value offset one_offset),
        (getWeekStart_value offset one_offset).
      unfold Day, msPerDay. Z.to_euclidean_division_equations; lia. }
  repeat split.
  - rewrite (getWeekStart_value offset one_offset), Enext,
      (getWeekEnd_value offset one_offset). lia.
  - rewrite (getWeekEnd_value offset one_offset), Eprev,
      (getWeekStart_value offset one_offset). lia.
  - apply not_true_is_false.
    rewrite (isSameWeek_iff_mondayOf offset one_offset), Enext. lia.
  - apply not_true_is_false.
    rewrite (isSameWeek_iff_mondayOf offset one_offset), Eprev. lia.
Qed.

(** X5.  In a zone that keeps one offset, later dates have later or equal
    week starts. *)
Theorem getWeekStart_monotone a b :
  a <= b -> getWeekStart a <= getWeekStart b.
Proof.
  intros Hab. rewrite !(getWeekStart_value offset one_offset).
  destruct (mondayOf_bounds a) as [Ha Ra].
  destruct (mondayOf_bounds b) as [Hb Rb].
  rewrite (LocalTime_value offset one_offset) in Ra, Rb.
  unfold Day, msPerDay in *.
  remember (mondayOf a) as ma. remember (mondayOf b) as mb.
  clear Heqma Heqmb.
  Z.to_euclidean_division_equations; lia.
Qed.

End WeekRangeProperties.

(* ================================================================== *)
(** * Further properties of the totals *)
(* ================================================================== *)

Section TotalsProperties.

Context {tz : TimeZone} {num : Type} {numOps : Number num}.

Implicit Types (w : World num) (week : WeekData num) (data : BudgetData num)
  (txs : list (Transaction num)) (t : Transaction num).

Lemma sumAmounts_app txs t :
  sumAmounts (txs ++ [t]) = num_add (sumAmounts txs) (amount t).
Proof. unfold sumAmounts. now rewrite fold_left_app. Qed.

Lemma filter_snoc {A : Type} (f : A -> bool) (l : list A) (x : A) :
  filter f (l ++ [x]) = if f x then filter f l ++ [x] else filter f l.
Proof.
  rewrite List.filter_app. cbn [filter].
  destruct (f x); [reflexivity | apply List.app_nil_r].
Qed.

Lemma filter_all {A : Type} (f : A -> bool) (l : list A) :
  (forall x, In x l -> f x = true) -> filter f l = l.
Proof.
  induction l as [|a l IH]; intros H; cbn [filter]; [reflexivity|].
  rewrite (H a (or_introl eq_refl)). f_equal. apply IH.
  intros x Hx. apply H. now right.
Qed.

Lemma calculateWeeklyTotal_snoc txs t ws :
  calculateWeeklyTotal (txs ++ [t]) ws =
  if (ws <=? timestamp t) && (timestamp t <=? getWeekEnd ws)
  then num_add (calculateWeeklyTotal txs ws) (amount t)
  else calculateWeeklyTotal txs ws.
Proof.
  unfold calculateWeeklyTotal. cbv zeta. rewrite filter_snoc.
  destruct (_ && _); [apply sumAmounts_app | reflexivity].
Qed.

Lemma calculateDailyTotal_snoc txs t date :
  calculateDailyTotal (txs ++ [t]) date =
  if isSameDay (timestamp t) date
  then num_add (calculateDailyTotal txs date) (amount t)
  else calculateDailyTotal txs date.
Proof.
  unfold calculateDailyTotal. rewrite filter_snoc.
  destruct (isSameDay _ _); [apply sumAmounts_app | reflexivity].
Qed.

Lemma calculateWeeklyTotal_single t ws :
  calculateWeeklyTotal [t] ws =
  if (ws <=? timestamp t) && (timestamp t <=? getWeekEnd ws)
  then num_add (calculateWeeklyTotal [] ws) (amount t)
  else calculateWeeklyTotal [] ws.
Proof. exact (calculateWeeklyTotal_snoc [] t ws). Qed.

Lemma calculateDailyTotal_single t date :
  calculateDailyTotal [t] date =
  if isSameDay (timestamp t) date
  then num_add (calculateDailyTotal [] date) (amount t)
  else calculateDailyTotal [] date.
Proof. exact (calculateDailyTotal_snoc [] t date). Qed.


(** X6.  Appending a transaction to a list adds its amount to the week
    total when its timestamp lies within the bounds of the week (both
    included) and leaves the week total as it was otherwise; likewise for
    the day total and the day of the given date.  The totals of the empty
    list are zero. *)
Theorem totals_of_appended_transaction txs t weekStart date :
  calculateWeeklyTotal (txs ++ [t]) weekStart =
    (if (weekStart <=? timestamp t) && (timestamp t <=? getWeekEnd weekStart)
     then num_add (calculateWeeklyTotal txs weekStart) (amount t)
     else calculateWeeklyTotal txs weekStart) /\
  calculateDailyTotal (txs ++ [t]) date =
    (if isSameDay (timestamp t) date
     then num_add (calculateDailyTotal txs date) (amount t)
     else calculateDailyTotal txs date) /\
  calculateWeeklyTotal [] weekStart = num_zero /\
  calculateDailyTotal [] date = num_zero.
Proof.
  split; [apply calculateWeeklyTotal_snoc|].
  split; [apply calculateDailyTotal_snoc|].
  split; reflexivity.
Qed.


(** X8.  The totals of the current bucket that [addTransaction] returns:
    with [kept] the transactions of the old current bucket in the
    same-week branch and none in the other, the week total is the week
    total of [kept], plus the new amount when the new timestamp lies in
    the week of [today]; the day total is the day total of [kept] at the
    clock reading of [createWeekData], plus the new amount when the new
    timestamp is of that day. *)
Theorem addTransaction_totals name amt data w :
  let currentWeekStart := getWeekStart (reading w 2) in
  let kept :=
    if isSameWeek (weekStart (currentWeek data)) currentWeekStart
    then transactions (currentWeek data) else [] in
  let updated := fst (addTransaction name amt data w) in
  weeklyTotal (currentWeek updated) =
    (if (currentWeekStart <=? reading w 1) &&
        (reading w 1 <=? getWeekEnd currentWeekStart)
     then num_add (calculateWeeklyTotal kept currentWeekStart) amt
     else calculateWeeklyTotal kept currentWeekStart) /\
  dailyTotal (currentWeek updated) =
    (if isSameDay (reading w 1) (reading w 3)
     then num_add (calculateDailyTotal kept (reading w 3)) amt
     else calculateDailyTotal kept (reading w 3)).
Proof.
  intros cws kept updated. subst updated kept cws.
  rewrite addTransaction_fst. cbv zeta.
  destruct (isSameWeek _ _);
    rewrite createWeekData_fst, now_elapse;
    cbn [currentWeek weeklyTotal dailyTotal].
  - rewrite calculateWeeklyTotal_snoc, calculateDailyTotal_snoc.
    cbn [timestamp amount]. split; reflexivity.
  - rewrite calculateWeeklyTotal_single, calculateDailyTotal_single.
    cbn [timestamp amount]. split; reflexivity.
Qed.

End TotalsProperties.

(* ================================================================== *)
(** * Further properties of [removeTransaction] *)
(* ================================================================== *)

Section RemoveProperties.

Context {tz : TimeZone} {num : Type} {numOps : Number num}.

Implicit Types (w : World num) (week : WeekData num) (data : BudgetData num).

Lemma updateWeek_weekStart target tid week w :
  weekStart (fst (updateWeek target tid week w)) = weekStart week.
Proof.
  destruct (isSameWeek (weekStart week) target) eqn:E.
  - now rewrite updateWeek_target.
  - now rewrite updateWeek_other.
Qed.

Lemma updateWeek_transactions target tid week w :
  transactions (fst (updateWeek target tid week w)) =
  if isSameWeek (weekStart week) target
  then filter (fun t => negb (String.eqb (id t) tid)) (transactions week)
  else transactions week.
Proof.
  destruct (isSameWeek (weekStart week) target) eqn:E.
  - now rewrite updateWeek_target.
  - now rewrite updateWeek_other.
Qed.

(** The buckets after a removal, position by position. *)
Lemma removeTransaction_buckets_map {B : Type} (f : WeekData num -> B)
    data tid target w :
  (forall week w', In week (buckets data) ->
     f (fst (updateWeek (getWeekStart target) tid week w')) = f week) ->
  map f (buckets (fst (removeTransaction data tid target w)))
  = map f (buckets data).
Proof.
  intros Hf. apply nth_error_ext. intros n. rewrite !nth_error_map.
  destruct (nth_error (buckets data) n) as [week|] eqn:E.
  - destruct (removeTransaction_buckets_nth data tid target w n week E)
      as [k Hk].
    rewrite Hk. cbn [option_map]. rewrite Hf; [reflexivity|].
    now apply nth_error_In in E.
  - apply nth_error_None in E.
    assert (L : List.length
                  (buckets (fst (removeTransaction data tid target w)))
                = List.length (buckets data)).
    { rewrite !buckets_length. f_equal.
      apply removeTransaction_previousWeeks_length. }
    rewrite <- L in E. apply nth_error_None in E. now rewrite E.
Qed.

Lemma removeTransaction_bucket_of data tid target w week' :
  In week' (buckets (fst (removeTransaction data tid target w))) ->
  exists week w',
    In week (buckets data) /\
    week' = fst (updateWeek (getWeekStart target) tid week w').
Proof.
  intros Hin. apply In_nth_error in Hin. destruct Hin as [n Hn].
  destruct (nth_error (buckets data) n) as [week|] eqn:E.
  - destruct (removeTransaction_buckets_nth data tid target w n week E)
      as [k Hk].
    exists week, (elapse k w). split; [now apply nth_error_In in E|].
    congruence.
  - exfalso. apply nth_error_None in E.
    assert (L : List.length
                  (buckets (fst (removeTransaction data tid target w)))
                = List.length (buckets data)).
    { rewrite !buckets_length. f_equal.
      apply removeTransaction_previousWeeks_length. }
    rewrite <- L in E. apply nth_error_None in E. congruence.
Qed.

(** X9.  [removeTransaction] never drops, adds or moves a bucket, even
    one that it empties: the week starts of the buckets, in their order,
    are those of before, and every transaction of a bucket afterwards was
    in a bucket before. *)
Theorem removeTransaction_keeps_every_bucket data tid target w :
  let updated := fst (removeTransaction data tid target w) in
  map weekStart (buckets updated) = map weekStart (buckets data) /\
  (forall week' t,
     In week' (buckets updated) -> In t (transactions week') ->
     exists week, In week (buckets data) /\ In t (transactions week) /\
                  weekStart week = weekStart week').
Proof.
  intros updated. subst updated. split.
  - apply removeTransaction_buckets_map. intros week w' _.
    apply updateWeek_weekStart.
  - intros week' t Hin Ht.
    destruct (removeTransaction_bucket_of data tid target w week' Hin)
      as (week & w' & Hweek & ->).
    exists week. split; [exact Hweek|]. split.
    + rewrite updateWeek_transactions in Ht.
      destruct (isSameWeek _ _); [|exact Ht].
      apply filter_In in Ht. tauto.
    + symmetry. apply updateWeek_weekStart.
Qed.

Lemma historyOrdered_by_starts data data' :
  map weekStart (buckets data') = map weekStart (buckets data) ->
  historyOrdered data -> historyOrdered data'.
Proof.
  unfold historyOrdered, buckets. cbn [map]. intros E [Hnorm Hsorted].
  injection E as Ecur Eprev. split.
  - intros week' Hin.
    assert (Hm : In (weekStart week')
                   (map weekStart (currentWeek data' :: previousWeeks data')))
      by now apply in_map.
    cbn [map] in Hm. rewrite Ecur, Eprev in Hm.
    change (In (weekStart week')
              (map weekStart (currentWeek data :: previousWeeks data)))
      in Hm.
    apply in_map_iff in Hm. destruct Hm as (week & Ews & Hweek).
    rewrite <- Ews. now apply Hnorm.
  - rewrite map_app in *. cbn [map] in *. now rewrite Ecur, Eprev.
Qed.

(** X10.  [removeTransaction] keeps the order of the ledger: when every
    bucket starts at a week start and the starts of the history followed
    by the current bucket increase strictly, so it is afterwards. *)
Theorem removeTransaction_keeps_history_ordered data tid target w :
  historyOrdered data ->
  historyOrdered (fst (removeTransaction data tid target w)).
Proof.
  apply historyOrdered_by_starts.
  apply removeTransaction_buckets_map. intros week w' _.
  apply updateWeek_weekStart.
Qed.



Lemma filter_filter_id tid (txs : list (Transaction num)) :
  filter (fun t => negb (String.eqb (id t) tid))
         (filter (fun t => negb (String.eqb (id t) tid)) txs)
  = filter (fun t => negb (String.eqb (id t) tid)) txs.
Proof.
  apply filter_all. intros t Ht. apply filter_In in Ht. tauto.
Qed.

Lemma updateWeek_twice target tid week w1 w2 :
  transactions
    (fst (updateWeek target tid (fst (updateWeek target tid week w1)) w2))
  = transactions (fst (updateWeek target tid week w1)).
Proof.
  rewrite (updateWeek_transactions target tid (fst _)).
  rewrite updateWeek_weekStart, updateWeek_transactions.
  destruct (isSameWeek _ _); [apply filter_filter_id | reflexivity].
Qed.

(** X12.  Removing the same id from the same week a second time changes
    no bucket's week start and no bucket's transactions. *)
Theorem removeTransaction_twice data tid target w w' :
  let once := fst (removeTransaction data tid target w) in
  let twice := fst (removeTransaction once tid target w') in
  map weekStart (buckets twice) = map weekStart (buckets once) /\
  map transactions (buckets twice) = map transactions (buckets once).
Proof.
  intros once twice. subst once twice. split.
  - apply removeTransaction_buckets_map. intros week w2 _.
    apply updateWeek_weekStart.
  - apply removeTransaction_buckets_map. intros week' w2 Hin.
    destruct (removeTransaction_bucket_of data tid target w week' Hin)
      as (week & w1 & _ & ->).
    apply updateWeek_twice.
Qed.

End RemoveProperties.

(* ================================================================== *)
(** * Further properties of [addTransaction] and of the default ledger *)
(* ================================================================== *)

Section AddProperties.

Context {tz : TimeZone} {num : Type} {numOps : Number num}.

Implicit Types (w : World num) (week : WeekData num) (data : BudgetData num).


Lemma isSameWeek_true a b :
  isSameWeek a b = true <-> getWeekStart a = getWeekStart b.
Proof. unfold isSameWeek, getTime. apply Z.eqb_eq. Qed.

Lemma StronglySorted_snoc l x :
  StronglySorted Z.lt (l ++ [x]) <->
  StronglySorted Z.lt l /\ Forall (fun y => y < x) l.
Proof.
  induction l as [|a l IH]; cbn [app].
  - split; [intros _; split; constructor|].
    intros _. repeat constructor.
  - split.
    + intros H. apply StronglySorted_inv in H. destruct H as [Hs Hf].
      apply IH in Hs. destruct Hs as [Hs Hx].
      apply Forall_app in Hf. destruct Hf as [Hf Hax].
      split; constructor; auto. now inversion Hax.
    + intros [Hs Hf]. apply StronglySorted_inv in Hs.
      destruct Hs as [Hs Hal]. inversion Hf as [|? ? Hax Hf']; subst.
      constructor.
      * apply IH. now split.
      * apply Forall_app. split; [exact Hal|]. now repeat constructor.
Qed.

(** The ledger after [addTransaction], bucket by bucket. *)
Lemma addTransaction_buckets name amt data w :
  buckets (fst (addTransaction name amt data w)) =
  let newTransaction :=
    {| id := toString (reading w 0); name := name;
       amount := amt; timestamp := reading w 1 |} in
  let currentWeekStart := getWeekStart (reading w 2) in
  if isSameWeek (weekStart (currentWeek data)) currentWeekStart then
    fst (createWeekData currentWeekStart
           (transactions (currentWeek data) ++ [newTransaction])
           (elapse 3 w))
    :: previousWeeks data
  else
    fst (createWeekData currentWeekStart [newTransaction] (elapse 3 w))
    :: previousWeeks data ++ [currentWeek data].
Proof.
  rewrite addTransaction_fst. cbv zeta.
  destruct (isSameWeek _ _); reflexivity.
Qed.

End AddProperties.

Section AddInvariants.

Context {tz : TimeZone} {num : Type} {numOps : Number num} (offset : Z).

Hypothesis one_offset : forall t isUTC, LocalTZA t isUTC = offset.

Implicit Types (w : World num) (week : WeekData num) (data : BudgetData num).

(** X13.  In a zone that keeps one offset, [addTransaction] keeps the
    order of the ledger, provided the week of [today] is not before the
    current bucket: when every bucket starts at a week start and the
    starts of the history followed by the current bucket increase
    strictly, so it is afterwards.  In particular the history never holds
    a bucket of the current week. *)
Theorem addTransaction_keeps_history_ordered name amt data w :
  weekStart (currentWeek data) <= getWeekStart (reading w 2) ->
  historyOrdered data ->
  historyOrdered (fst (addTransaction name amt data w)).
Proof.
  intros Hle Hord.
  pose proof (getWeekStart_idem offset one_offset (reading w 2)) as Hidem.
  destruct (isSameWeek (weekStart (currentWeek data))
              (getWeekStart (reading w 2))) eqn:E.
  - (* same week: the starts are those of before *)
    apply (historyOrdered_by_starts data); [|exact Hord].
    rewrite addTransaction_buckets. cbv zeta. rewrite E.
    rewrite createWeekData_fst. unfold buckets. cbn [map weekStart].
    f_equal. apply isSameWeek_true in E. rewrite Hidem in E.
    destruct Hord as [Hnorm _].
    rewrite <- E. apply Hnorm. unfold buckets. now left.
  - (* a new week: a later start is added after the others *)
    destruct Hord as [Hnorm Hsorted].
    assert (Hlt : weekStart (currentWeek data) < getWeekStart (reading w 2)).
    { destruct (Z.eq_dec (weekStart (currentWeek data))
                  (getWeekStart (reading w 2))) as [Eq|Ne]; [|lia].
      rewrite Eq, isSameWeek_refl in E. discriminate. }
    unfold historyOrdered.
    rewrite addTransaction_buckets. cbv zeta. rewrite E.
    rewrite addTransaction_fst. cbv zeta. rewrite E.
    rewrite createWeekData_fst. cbn [currentWeek previousWeeks].
    split.
    + intros week [<-|Hin].
      * cbn [weekStart]. exact Hidem.
      * apply Hnorm. unfold buckets. apply in_app_or in Hin.
        destruct Hin as [Hin|[<-|[]]]; [now right | now left].
    + rewrite map_app. cbn [map weekStart].
      apply StronglySorted_snoc. split; [exact Hsorted|].
      rewrite map_app in *. cbn [map] in *.
      apply StronglySorted_snoc in Hsorted. destruct Hsorted as [_ Hall].
      apply Forall_app. split.
      * rewrite Forall_forall in *. intros y Hy. specialize (Hall y Hy). lia.
      * now repeat constructor.
Qed.


(** X15.  In a zone that keeps one offset, removing the transaction that
    [addTransaction] has just added, from the week of the current bucket,
    gives back the transactions the current bucket had (none after a
    change of week), provided no earlier transaction of the bucket
    carries the new id. *)
Theorem addTransaction_then_removeTransaction name amt data w w' :
  (forall t, In t (transactions (currentWeek data)) ->
             id t <> toString (reading w 0)) ->
  let added := fst (addTransaction name amt data w) in
  let removed :=
    fst (removeTransaction added (toString (reading w 0))
           (weekStart (currentWeek added)) w') in
  weekStart (currentWeek removed) = getWeekStart (reading w 2) /\
  transactions (currentWeek removed) =
    (if isSameWeek (weekStart (currentWeek data))
                   (getWeekStart (reading w 2))
     then transactions (currentWeek data) else []).
Proof.
  intros Hfresh added removed. subst added removed.
  rewrite removeTransaction_currentWeek.
  rewrite updateWeek_weekStart, updateWeek_transactions.
  rewrite !addTransaction_currentWeek_start.
  assert (Hsame : isSameWeek (getWeekStart (reading w 2))
                    (getWeekStart (getWeekStart (reading w 2))) = true).
  { apply isSameWeek_true.
    now rewrite !(getWeekStart_idem offset one_offset). }
  rewrite Hsame. split; [reflexivity|].
  rewrite addTransaction_fst. cbv zeta.
  destruct (isSameWeek (weekStart (currentWeek data)) _);
    rewrite createWeekData_fst; cbn [currentWeek transactions].
  - rewrite List.filter_app, (filter_absent_id _ _ Hfresh).
    cbn [filter id]. rewrite String.eqb_refl. cbn [negb].
    apply List.app_nil_r.
  - cbn [filter id]. rewrite String.eqb_refl. reflexivity.
Qed.

Lemma defaultBudgetData_fst w :
  fst (defaultBudgetData w) =
  {| currentWeek :=
       {| weekStart := getWeekStart (reading w 0);
          transactions := [];
          dailyTotal := calculateDailyTotal [] (reading w 1);
          weeklyTotal := calculateWeeklyTotal [] (getWeekStart (reading w 0)) |};
     previousWeeks := [] |}.
Proof.
  unfold defaultBudgetData, createWeekData. unfold bind, newDate, ret.
  cbv beta iota zeta.
  now rewrite <- (reading_0 w), (now_elapse 1 w : now (tick w) = _).
Qed.

Lemma defaultBudgetData_snd w : snd (defaultBudgetData w) = elapse 2 w.
Proof. reflexivity. Qed.

(** X16.  The default ledger, which [loadBudgetData] returns when it has
    read no ledger, is one empty bucket for the present week, with totals
    zero and no history, and its totals are exact; in a zone that keeps
    one offset it is ordered. *)
Theorem defaultBudgetData_conditions w :
  let data := fst (defaultBudgetData w) in
  previousWeeks data = [] /\
  transactions (currentWeek data) = [] /\
  weekStart (currentWeek data) = getWeekStart (reading w 0) /\
  dailyTotal (currentWeek data) = num_zero /\
  weeklyTotal (currentWeek data) = num_zero /\
  totalsExact data /\
  (forall zoneOffset,
     (forall t isUTC, LocalTZA t isUTC = zoneOffset) ->
     historyOrdered data).
Proof.
  intros data. subst data. rewrite defaultBudgetData_fst.
  cbn [previousWeeks currentWeek transactions weekStart dailyTotal
       weeklyTotal].
  do 5 (split; [reflexivity|]). split.
  - unfold totalsExact, buckets. cbn [currentWeek previousWeeks].
    constructor; [|constructor]. split.
    + intros t [].
    + reflexivity.
  - intros zoneOffset Hzone. split.
    + intros week [<-|[]]. cbn [weekStart].
      apply (getWeekStart_idem zoneOffset Hzone).
    + cbn. repeat constructor.
Qed.

(** X17.  In a zone that keeps one offset, a first [addTransaction] on the
    default ledger, in the week in which the ledger was made, gives a
    ledger of one bucket, which starts with that week and holds the new
    transaction alone. *)
Theorem first_transaction_of_default_ledger name amt w :
  isSameWeek (reading w 0) (reading w 4) = true ->
  let start := defaultBudgetData w in
  let updated := fst (addTransaction name amt (fst start) (snd start)) in
  previousWeeks updated = [] /\
  weekStart (currentWeek updated) = getWeekStart (reading w 0) /\
  transactions (currentWeek updated) =
    [ {| id := toString (reading w 2); name := name;
         amount := amt; timestamp := reading w 3 |} ].
Proof.
  intros Hweek start updated. subst start updated.
  rewrite defaultBudgetData_snd, addTransaction_fst. cbv zeta.
  assert (R : forall k, reading (elapse 2 w) k = reading w (2 + k)).
  { intros k. unfold reading. rewrite clock_elapse, reads_elapse.
    f_equal. lia. }
  rewrite !R. cbn [Nat.add].
  rewrite defaultBudgetData_fst. cbn [currentWeek weekStart transactions
                                      previousWeeks].
  apply isSameWeek_true in Hweek.
  assert (E : isSameWeek (getWeekStart (reading w 0))
                (getWeekStart (reading w 4)) = true).
  { apply isSameWeek_true.
    now rewrite !(getWeekStart_idem offset one_offset). }
  rewrite E, createWeekData_fst.
  cbn [currentWeek weekStart transactions previousWeeks app].
  repeat split; congruence.
Qed.

End AddInvariants.

(* ================================================================== *)
(** * Persistence, the delete action and the display preference *)
(* ================================================================== *)

Section PersistenceProperties.

Context {tz : TimeZone} {num : Type} {numOps : Number num}.

Implicit Types (w : World num) (week : WeekData num) (data : BudgetData num).

(** X18.  [addTransaction] and [removeTransaction] end by writing the
    ledger they return: after the call the store holds that ledger, or,
    when the write is rejected, what it held before; the ledger is
    returned in both cases. *)
Theorem operations_save_their_result name amt data tid target w :
  saved (snd (addTransaction name amt data w)) =
    (if storageFails w then saved w
     else Some (fst (addTransaction name amt data w))) /\
  saved (snd (removeTransaction data tid target w)) =
    (if storageFails w then saved w
     else Some (fst (removeTransaction data tid target w))).
Proof.
  split; [apply addTransaction_saved | apply removeTransaction_saved].
Qed.

Lemma deleteOnPress_fst data tid sel w :
  fst (deleteOnPress data tid sel w) =
  let updated := fst (removeTransaction data tid (weekStart sel) w) in
  (updated,
   match find (fun week => isSameWeek (weekStart week) (weekStart sel))
              (buckets updated) with
   | Some week => week
   | None => currentWeek updated
   end).
Proof.
  unfold deleteOnPress, bind, ret. cbv zeta.
  destruct (removeTransaction data tid (weekStart sel) w) as [updated w1].
  cbn [fst]. unfold buckets. cbn [find].
  destruct (isSameWeek (weekStart (currentWeek updated)) (weekStart sel));
    reflexivity.
Qed.

Lemma fst_pair {A B : Type} (a : A) (b : B) : fst (a, b) = a.
Proof. reflexivity. Qed.

Lemma snd_pair {A B : Type} (a : A) (b : B) : snd (a, b) = b.
Proof. reflexivity. Qed.

Lemma find_first {A : Type} (p : A -> bool) (l : list A) (i : nat) (x : A) :
  nth_error l i = Some x -> p x = true ->
  (forall j y, (j < i)%nat -> nth_error l j = Some y -> p y = false) ->
  find p l = Some x.
Proof.
  revert i. induction l as [|a l IH]; intros [|i] Hi Hx Hbefore;
    try discriminate.
  - cbn in Hi. injection Hi as ->. cbn [find]. now rewrite Hx.
  - cbn [find]. rewrite (Hbefore 0%nat a); [|lia|reflexivity].
    apply (IH i); [exact Hi | exact Hx |].
    intros j y Hj Hy. apply (Hbefore (S j) y); [lia | exact Hy].
Qed.

(** X19.  After the delete action on a transaction of the selected week
    (a bucket of the ledger, the first one of its week, whose start
    [getWeekStart] normalizes to one week start), the ledger is the one
    that [removeTransaction] returns and the week shown is the bucket at
    the same place in it: the same start, and the transactions of before
    without those that carry the id. *)
Theorem deleteOnPress_keeps_week_selected data tid sel i w :
  nth_error (buckets data) i = Some sel ->
  (forall j week, (j < i)%nat -> nth_error (buckets data) j = Some week ->
     isSameWeek (weekStart week) (weekStart sel) = false) ->
  getWeekStart (getWeekStart (weekStart sel)) = getWeekStart (weekStart sel) ->
  let result := fst (deleteOnPress data tid sel w) in
  fst result = fst (removeTransaction data tid (weekStart sel) w) /\
  nth_error (buckets (fst result)) i = Some (snd result) /\
  weekStart (snd result) = weekStart sel /\
  transactions (snd result) =
    filter (fun t => negb (String.eqb (id t) tid)) (transactions sel).
Proof.
  intros Hi Hfirst Hidem result. subst result.
  rewrite deleteOnPress_fst. cbv zeta.
  destruct (removeTransaction_buckets_nth data tid (weekStart sel) w i sel Hi)
    as [k Hk].
  assert (Hbefore : forall j y, (j < i)%nat ->
            nth_error
              (buckets (fst (removeTransaction data tid (weekStart sel) w)))
              j = Some y ->
            isSameWeek (weekStart y) (weekStart sel) = false).
  { intros j y Hj Hy.
    destruct (nth_error (buckets data) j) as [week|] eqn:E.
    - destruct (removeTransaction_buckets_nth data tid (weekStart sel)
                  w j week E) as [k' Hk'].
      assert (Ey : y = fst (updateWeek (getWeekStart (weekStart sel)) tid
                              week (elapse k' w))) by congruence.
      rewrite Ey, updateWeek_weekStart. now apply (Hfirst j).
    - exfalso. apply nth_error_None in E.
      assert (Hlt : (i < List.length (buckets data))%nat)
        by (apply nth_error_Some; congruence).
      lia. }
  remember (fst (removeTransaction data tid (weekStart sel) w)) as updated
    eqn:Eupdated.
  remember (fst (updateWeek (getWeekStart (weekStart sel)) tid sel
                   (elapse k w))) as sel' eqn:Esel'.
  assert (Hws : weekStart sel' = weekStart sel)
    by (rewrite Esel'; apply updateWeek_weekStart).
  assert (Htx : transactions sel' =
                filter (fun t => negb (String.eqb (id t) tid))
                       (transactions sel)).
  { rewrite Esel', updateWeek_transactions.
    replace (isSameWeek (weekStart sel) (getWeekStart (weekStart sel)))
      with true; [reflexivity|].
    symmetry. apply isSameWeek_true. now rewrite Hidem. }
  rewrite (find_first _ (buckets updated) i sel' Hk);
    [| rewrite Hws; apply isSameWeek_refl | exact Hbefore].
  rewrite fst_pair, snd_pair. auto.
Qed.

End PersistenceProperties.

Module PreferencesFacts.

Import Preferences.

Lemma load_after_save (isDarkMode : bool) (s : AsyncStorage) :
  rejects s (calls s) = false ->
  rejects s (S (calls s)) = false ->
  fst (loadDarkModePreference (saveDarkModePreference isDarkMode s))
  = isDarkMode.
Proof.
  intros Hw Hr.
  unfold loadDarkModePreference, saveDarkModePreference, getItem, setItem.
  rewrite Hw. cbn [snd rejects calls items]. rewrite Hr.
  cbn [fst]. rewrite String.eqb_refl. now destruct isDarkMode.
Qed.

(** X20.  A saved display preference is the one loaded next, when
    neither the write nor the read is rejected; after the toggle of the
    header the preference loaded next is the negation of the one shown
    before. *)
Theorem darkModePreference_round_trip (isDarkMode : bool) (s : AsyncStorage) :
  rejects s (calls s) = false ->
  rejects s (S (calls s)) = false ->
  fst (loadDarkModePreference (saveDarkModePreference isDarkMode s))
    = isDarkMode /\
  fst (loadDarkModePreference (snd (toggleOnPress isDarkMode s)))
    = negb isDarkMode.
Proof.
  intros Hw Hr. split.
  - now apply load_after_save.
  - unfold toggleOnPress. cbv zeta. rewrite snd_pair.
    now apply load_after_save.
Qed.

(** X21.  Loading the display preference gives dark mode only for the
    stored string ["true"]: it gives [false] when the read is rejected,
    when nothing is stored under the key, and for any other stored
    string; and it changes no item of the store. *)
Theorem loadDarkModePreference_cases (s : AsyncStorage) :
  (rejects s (calls s) = true -> fst (loadDarkModePreference s) = false) /\
  (items s DARK_MODE_KEY = None -> fst (loadDarkModePreference s) = false) /\
  (forall p, items s DARK_MODE_KEY = Some p -> p <> "true"%string ->
             fst (loadDarkModePreference s) = false) /\
  (rejects s (calls s) = false ->
   items s DARK_MODE_KEY = Some "true"%string ->
   fst (loadDarkModePreference s) = true) /\
  items (snd (loadDarkModePreference s)) = items s.
Proof.
  unfold loadDarkModePreference, getItem.
  repeat split.
  - intros ->. reflexivity.
  - intros E. destruct (rejects s (calls s)); [reflexivity|].
    now rewrite E.
  - intros p E Hp. destruct (rejects s (calls s)); [reflexivity|].
    rewrite E. cbn [fst]. now apply String.eqb_neq.
  - intros -> E. now rewrite E.
  - destruct (rejects s (calls s)); [reflexivity|].
    now destruct (items s DARK_MODE_KEY).
Qed.

(** X22.  Saving the display preference leaves the string under every
    other key as it was, the ledger's key among them; a rejected write
    leaves every item as it was. *)
Theorem saveDarkModePreference_frame (isDarkMode : bool) (s : AsyncStorage) :
  (forall key, key <> DARK_MODE_KEY ->
     items (saveDarkModePreference isDarkMode s) key = items s key) /\
  items (saveDarkModePreference isDarkMode s) STORAGE_KEY
    = items s STORAGE_KEY /\
  (rejects s (calls s) = true ->
   items (saveDarkModePreference isDarkMode s) = items s).
Proof.
  unfold saveDarkModePreference, setItem.
  destruct (rejects s (calls s)); cbn [snd items called].
  - repeat split; intros; reflexivity.
  - split; [|split].
    + intros key Hkey. apply String.eqb_neq in Hkey. now rewrite Hkey.
    + reflexivity.
    + discriminate.
Qed.

End PreferencesFacts.

(* ================================================================== *)
(** * The further properties on concrete dates and ledgers *)
(* ================================================================== *)

Lemma date_within_its_week_witness :
  getWeekStart (tz := fiveHoursBehind) wed_2025_03_05 <= wed_2025_03_05
  <= getWeekEnd (tz := fiveHoursBehind) wed_2025_03_05.
Proof.
  apply (date_within_its_week (tz := fiveHoursBehind) (-5 * ES.msPerHour)).
  intros t isUTC. reflexivity.
Defined.

Lemma isSameWeek_iff_within_week_witness :
  isSameWeek (tz := fiveHoursBehind) wed_2025_03_05 thu_2025_03_06 = true <->
  getWeekStart (tz := fiveHoursBehind) wed_2025_03_05 <= thu_2025_03_06
  <= getWeekEnd (tz := fiveHoursBehind) wed_2025_03_05.
Proof.
  apply (isSameWeek_iff_within_week (tz := fiveHoursBehind)
           (-5 * ES.msPerHour)).
  intros t isUTC. reflexivity.
Defined.

Lemma weeks_leave_no_gap_witness :
  getWeekStart (tz := utcZone) (getWeekEnd (tz := utcZone) wed_2025_03_05 + 1)
  = getWeekEnd (tz := utcZone) wed_2025_03_05 + 1.
Proof.
  exact (proj1 (weeks_leave_no_gap (tz := utcZone) 0
                  (fun _ _ => eq_refl) wed_2025_03_05)).
Defined.

Lemma getWeekStart_monotone_witness :
  wed_2025_03_05 <= thu_2025_03_06 /\
  getWeekStart (tz := utcZone) wed_2025_03_05
  <= getWeekStart (tz := utcZone) thu_2025_03_06.
Proof.
  assert (H : wed_2025_03_05 <= thu_2025_03_06)
    by (apply Z.leb_le; vm_compute; reflexivity).
  split; [exact H|].
  apply (getWeekStart_monotone (tz := utcZone) 0); [|exact H].
  intros t isUTC. reflexivity.
Defined.



Lemma staleLedger_historyOrdered : historyOrdered (tz := utcZone) staleLedger.
Proof.
  split.
  - intros week [<-|[<-|[]]]; vm_compute; reflexivity.
  - cbn. repeat constructor.
Qed.


Lemma removeTransaction_keeps_history_ordered_witness :
  historyOrdered (tz := utcZone)
    (fst (removeTransaction (tz := utcZone) staleLedger "1739145600000"
            mon_2025_02_10 (worldAt [wed_2025_03_05]))).
Proof.
  apply (removeTransaction_keeps_history_ordered (tz := utcZone)).
  exact staleLedger_historyOrdered.
Defined.


Lemma addTransaction_keeps_history_ordered_witness :
  historyOrdered (tz := utcZone)
    (fst (addTransaction (tz := utcZone) "Coffee" 450 staleLedger
            (worldAt [wed_2025_03_05]))).
Proof.
  apply (addTransaction_keeps_history_ordered (tz := utcZone) 0).
  - intros t isUTC. reflexivity.
  - apply Z.leb_le. vm_compute. reflexivity.
  - exact staleLedger_historyOrdered.
Defined.


Lemma addTransaction_then_removeTransaction_witness :
  weekStart
    (currentWeek
       (fst (removeTransaction (tz := utcZone)
               (fst (addTransaction (tz := utcZone) "Lunch" 1200
                       ledgerWithCoffee (worldAt [thu_2025_03_06])))
               (toString (reading (worldAt [thu_2025_03_06]) 0))
               (weekStart
                  (currentWeek
                     (fst (addTransaction (tz := utcZone) "Lunch" 1200
                             ledgerWithCoffee (worldAt [thu_2025_03_06])))))
               (worldAt [thu_2025_03_06]))))
  = getWeekStart (tz := utcZone) (reading (worldAt [thu_2025_03_06]) 2).
Proof.
  refine (proj1 (addTransaction_then_removeTransaction (tz := utcZone) 0
                   (fun _ _ => eq_refl) "Lunch" 1200 ledgerWithCoffee
                   (worldAt [thu_2025_03_06]) (worldAt [thu_2025_03_06]) _)).
  intros t [<-|[]]. vm_compute. discriminate.
Defined.

Lemma defaultBudgetData_conditions_witness :
  historyOrdered (tz := utcZone)
    (fst (defaultBudgetData (tz := utcZone) (worldAt [wed_2025_03_05]))).
Proof.
  refine (proj2 (proj2 (proj2 (proj2 (proj2 (proj2
            (defaultBudgetData_conditions (tz := utcZone)
               (worldAt [wed_2025_03_05]))))))) 0 _).
  intros t isUTC. reflexivity.
Defined.

Lemma first_transaction_of_default_ledger_witness :
  previousWeeks
    (fst (addTransaction (tz := utcZone) "Coffee" 450
            (fst (defaultBudgetData (tz := utcZone)
                    (worldAt [wed_2025_03_05])))
            (snd (defaultBudgetData (tz := utcZone)
                    (worldAt [wed_2025_03_05])))))
  = [].
Proof.
  refine (proj1 (first_transaction_of_default_ledger (tz := utcZone) 0
                   (fun _ _ => eq_refl) "Coffee" 450
                   (worldAt [wed_2025_03_05]) _)).
  vm_compute. reflexivity.
Defined.

Lemma deleteOnPress_keeps_week_selected_witness :
  weekStart
    (snd (fst (deleteOnPress (tz := utcZone) staleLedger "1739145600000"
                 (currentWeek staleLedger) (worldAt [wed_2025_03_05]))))
  = weekStart (currentWeek staleLedger).
Proof.
  refine (proj1 (proj2 (proj2
            (deleteOnPress_keeps_week_selected (tz := utcZone) staleLedger
               "1739145600000" (currentWeek staleLedger) 0
               (worldAt [wed_2025_03_05]) _ _ _)))).
  - reflexivity.
  - intros j week Hj. lia.
  - vm_compute. reflexivity.
Defined.

Lemma darkModePreference_round_trip_witness :
  fst (Preferences.loadDarkModePreference
         (Preferences.saveDarkModePreference true emptyStorage))
  = true.
Proof.
  refine (proj1 (PreferencesFacts.darkModePreference_round_trip true
                   emptyStorage _ _)); reflexivity.
Defined.

(** The delete action empties a bucket and still shows it. *)
Example deleteOnPress_last_transaction :
  let result :=
    fst (deleteOnPress (tz := utcZone) staleLedger "1739145600000"
           (currentWeek staleLedger) (worldAt [wed_2025_03_05])) in
  transactions (snd result) = [] /\
  weeklyTotal (snd result) = 0 /\
  List.length (buckets (fst result)) = 2%nat.
Proof. vm_compute. auto. Qed.

(** When the week changes between the reading of the timestamp and the
    reading of [today], the new bucket does not count its own
    transaction. *)
Example week_changes_during_addTransaction :
  let sunday_last_ms := mon_2025_03_03 - 1 in
  let updated :=
    fst (addTransaction (tz := utcZone) "Coffee" 450 staleLedger
           (worldAt [sunday_last_ms; sunday_last_ms; mon_2025_03_03])) in
  weekStart (currentWeek updated) = mon_2025_03_03 /\
  List.length (transactions (currentWeek updated)) = 1%nat /\
  weeklyTotal (currentWeek updated) = 0.
Proof. vm_compute. auto. Qed.
